(** * rclpy.qos: Quality-of-Service profiles

    A shallow embedding of [rclpy/qos.py]: the policy enumerations, the
    [QoSProfile] class with its validated property setters, the
    [InvalidQoSProfileException] class, the [QoSPolicyEnum] helpers and
    [qos_check_compatible].

    Python objects are dynamically typed, so values are kept in one universe
    [PyVal]; an instance of [QoSProfile] is the finite map from its slot
    names to the values they hold.  Code that can raise returns a [result];
    code that assigns attributes or issues warnings runs in the state and
    exception monad [M]. *)

From Stdlib Require Import ZArith String Ascii List Bool Lia DecimalString.
From stdpp Require Import base gmap strings list fin_maps.
Import ListNotations.
Local Open Scope string_scope.
Local Open Scope Z_scope.

(** ** Strings

    [str] methods used by the module, on 8-bit characters: [str.upper],
    [str.lower], [str.startswith], the [in] operator and [str.join]. *)

Definition is_lower (c : ascii) : bool :=
  let n := N_of_ascii c in ((97 <=? n) && (n <=? 122))%N.

Definition is_upper (c : ascii) : bool :=
  let n := N_of_ascii c in ((65 <=? n) && (n <=? 90))%N.

Definition upper_ascii (c : ascii) : ascii :=
  if is_lower c then ascii_of_N (N_of_ascii c - 32) else c.

Definition lower_ascii (c : ascii) : ascii :=
  if is_upper c then ascii_of_N (N_of_ascii c + 32) else c.

Fixpoint str_upper (s : string) : string :=
  match s with
  | EmptyString => EmptyString
  | String c s' => String (upper_ascii c) (str_upper s')
  end.

Fixpoint str_lower (s : string) : string :=
  match s with
  | EmptyString => EmptyString
  | String c s' => String (lower_ascii c) (str_lower s')
  end.

(** [s.startswith(p)] *)
Definition str_startswith (s p : string) : bool := String.prefix p s.

(** [needle in s] *)
Fixpoint str_contains (needle s : string) : bool :=
  String.prefix needle s ||
  match s with
  | EmptyString => false
  | String _ s' => str_contains needle s'
  end.

(** [sep.join(l)] *)
Definition str_join (sep : string) (l : list string) : string :=
  String.concat sep l.

(** [repr] of a Python [int]. *)
Definition repr_int (z : Z) : string := NilZero.string_of_int (Z.to_int z).

(** ** Enumerations

    An [IntEnum] class is its qualified name, its members in definition
    order, and the name and the integer value of each member. *)

Class IntEnum (E : Type) := {
  enum_qualname : string;
  enum_members : list E;
  enum_name : E -> string;
  enum_value : E -> Z;
}.

(** [cls.__members__], as the ordered list of its items. *)
Definition enum__members__ {E} `{IntEnum E} : list (string * E) :=
  map (fun m => (enum_name m, m)) enum_members.

(** The member a name is bound to ([cls[name]] before it raises). *)
Definition enum_lookup_name {E} `{IntEnum E} (k : string) : option E :=
  List.find (fun m => String.eqb (enum_name m) k) enum_members.

(** The member an integer denotes ([cls(value)] before it raises). *)
Definition enum_lookup_value {E} `{IntEnum E} (z : Z) : option E :=
  List.find (fun m => enum_value m =? z) enum_members.

(** [QoSPolicyKind]: the trailing commas of the source make the last four
    values one-element tuples, which [IntEnum] passes to [int], so they are
    the integers written. *)
Inductive QoSPolicyKind :=
| INVALID
| DURABILITY
| DEADLINE
| LIVELINESS
| RELIABILITY
| HISTORY
| LIFESPAN
| DEPTH
| LIVELINESS_LEASE_DURATION
| AVOID_ROS_NAMESPACE_CONVENTIONS.

#[export] Instance QoSPolicyKind_enum : IntEnum QoSPolicyKind := {|
  enum_qualname := "QoSPolicyKind";
  enum_members := [INVALID; DURABILITY; DEADLINE; LIVELINESS; RELIABILITY;
                   HISTORY; LIFESPAN; DEPTH; LIVELINESS_LEASE_DURATION;
                   AVOID_ROS_NAMESPACE_CONVENTIONS];
  enum_name k :=
    match k with
    | INVALID => "INVALID"
    | DURABILITY => "DURABILITY"
    | DEADLINE => "DEADLINE"
    | LIVELINESS => "LIVELINESS"
    | RELIABILITY => "RELIABILITY"
    | HISTORY => "HISTORY"
    | LIFESPAN => "LIFESPAN"
    | DEPTH => "DEPTH"
    | LIVELINESS_LEASE_DURATION => "LIVELINESS_LEASE_DURATION"
    | AVOID_ROS_NAMESPACE_CONVENTIONS => "AVOID_ROS_NAMESPACE_CONVENTIONS"
    end;
  enum_value k :=
    match k with
    | INVALID => Z.shiftl 1 0
    | DURABILITY => Z.shiftl 1 1
    | DEADLINE => Z.shiftl 1 2
    | LIVELINESS => Z.shiftl 1 3
    | RELIABILITY => Z.shiftl 1 4
    | HISTORY => Z.shiftl 1 5
    | LIFESPAN => Z.shiftl 1 6
    | DEPTH => Z.shiftl 1 7
    | LIVELINESS_LEASE_DURATION => Z.shiftl 1 8
    | AVOID_ROS_NAMESPACE_CONVENTIONS => Z.shiftl 1 9
    end;
|}.

Module HistoryPolicy.
Inductive t := SYSTEM_DEFAULT | KEEP_LAST | KEEP_ALL | UNKNOWN.
End HistoryPolicy.

Module ReliabilityPolicy.
Inductive t := SYSTEM_DEFAULT | RELIABLE | BEST_EFFORT | UNKNOWN | BEST_AVAILABLE.
End ReliabilityPolicy.

Module DurabilityPolicy.
Inductive t := SYSTEM_DEFAULT | TRANSIENT_LOCAL | VOLATILE | UNKNOWN | BEST_AVAILABLE.
End DurabilityPolicy.

Module LivelinessPolicy.
Inductive t := SYSTEM_DEFAULT | AUTOMATIC | MANUAL_BY_TOPIC | UNKNOWN | BEST_AVAILABLE.
End LivelinessPolicy.

(** Aliases with the old names, for retrocompatibility. *)
Module QoSHistoryPolicy := HistoryPolicy.
Module QoSReliabilityPolicy := ReliabilityPolicy.
Module QoSDurabilityPolicy := DurabilityPolicy.
Module QoSLivelinessPolicy := LivelinessPolicy.

#[export] Instance HistoryPolicy_enum : IntEnum HistoryPolicy.t := {|
  enum_qualname := "HistoryPolicy";
  enum_members := [HistoryPolicy.SYSTEM_DEFAULT; HistoryPolicy.KEEP_LAST;
                   HistoryPolicy.KEEP_ALL; HistoryPolicy.UNKNOWN];
  enum_name m :=
    match m with
    | HistoryPolicy.SYSTEM_DEFAULT => "SYSTEM_DEFAULT"
    | HistoryPolicy.KEEP_LAST => "KEEP_LAST"
    | HistoryPolicy.KEEP_ALL => "KEEP_ALL"
    | HistoryPolicy.UNKNOWN => "UNKNOWN"
    end;
  enum_value m :=
    match m with
    | HistoryPolicy.SYSTEM_DEFAULT => 0
    | HistoryPolicy.KEEP_LAST => 1
    | HistoryPolicy.KEEP_ALL => 2
    | HistoryPolicy.UNKNOWN => 3
    end;
|}.

#[export] Instance ReliabilityPolicy_enum : IntEnum ReliabilityPolicy.t := {|
  enum_qualname := "ReliabilityPolicy";
  enum_members := [ReliabilityPolicy.SYSTEM_DEFAULT; ReliabilityPolicy.RELIABLE;
                   ReliabilityPolicy.BEST_EFFORT; ReliabilityPolicy.UNKNOWN;
                   ReliabilityPolicy.BEST_AVAILABLE];
  enum_name m :=
    match m with
    | ReliabilityPolicy.SYSTEM_DEFAULT => "SYSTEM_DEFAULT"
    | ReliabilityPolicy.RELIABLE => "RELIABLE"
    | ReliabilityPolicy.BEST_EFFORT => "BEST_EFFORT"
    | ReliabilityPolicy.UNKNOWN => "UNKNOWN"
    | ReliabilityPolicy.BEST_AVAILABLE => "BEST_AVAILABLE"
    end;
  enum_value m :=
    match m with
    | ReliabilityPolicy.SYSTEM_DEFAULT => 0
    | ReliabilityPolicy.RELIABLE => 1
    | ReliabilityPolicy.BEST_EFFORT => 2
    | ReliabilityPolicy.UNKNOWN => 3
    | ReliabilityPolicy.BEST_AVAILABLE => 4
    end;
|}.

#[export] Instance DurabilityPolicy_enum : IntEnum DurabilityPolicy.t := {|
  enum_qualname := "DurabilityPolicy";
  enum_members := [DurabilityPolicy.SYSTEM_DEFAULT; DurabilityPolicy.TRANSIENT_LOCAL;
                   DurabilityPolicy.VOLATILE; DurabilityPolicy.UNKNOWN;
                   DurabilityPolicy.BEST_AVAILABLE];
  enum_name m :=
    match m with
    | DurabilityPolicy.SYSTEM_DEFAULT => "SYSTEM_DEFAULT"
    | DurabilityPolicy.TRANSIENT_LOCAL => "TRANSIENT_LOCAL"
    | DurabilityPolicy.VOLATILE => "VOLATILE"
    | DurabilityPolicy.UNKNOWN => "UNKNOWN"
    | DurabilityPolicy.BEST_AVAILABLE => "BEST_AVAILABLE"
    end;
  enum_value m :=
    match m with
    | DurabilityPolicy.SYSTEM_DEFAULT => 0
    | DurabilityPolicy.TRANSIENT_LOCAL => 1
    | DurabilityPolicy.VOLATILE => 2
    | DurabilityPolicy.UNKNOWN => 3
    | DurabilityPolicy.BEST_AVAILABLE => 4
    end;
|}.

#[export] Instance LivelinessPolicy_enum : IntEnum LivelinessPolicy.t := {|
  enum_qualname := "LivelinessPolicy";
  enum_members := [LivelinessPolicy.SYSTEM_DEFAULT; LivelinessPolicy.AUTOMATIC;
                   LivelinessPolicy.MANUAL_BY_TOPIC; LivelinessPolicy.UNKNOWN;
                   LivelinessPolicy.BEST_AVAILABLE];
  enum_name m :=
    match m with
    | LivelinessPolicy.SYSTEM_DEFAULT => "SYSTEM_DEFAULT"
    | LivelinessPolicy.AUTOMATIC => "AUTOMATIC"
    | LivelinessPolicy.MANUAL_BY_TOPIC => "MANUAL_BY_TOPIC"
    | LivelinessPolicy.UNKNOWN => "UNKNOWN"
    | LivelinessPolicy.BEST_AVAILABLE => "BEST_AVAILABLE"
    end;
  enum_value m :=
    match m with
    | LivelinessPolicy.SYSTEM_DEFAULT => 0
    | LivelinessPolicy.AUTOMATIC => 1
    | LivelinessPolicy.MANUAL_BY_TOPIC => 3
    | LivelinessPolicy.UNKNOWN => 4
    | LivelinessPolicy.BEST_AVAILABLE => 5
    end;
|}.

(** ** Values and exceptions *)

(** The Python values the module handles.  [VDuration] is an instance of
    [rclpy.duration.Duration], a nanosecond count; [VException] is an
    exception instance. *)
Inductive PyVal :=
| VNone
| VBool (b : bool)
| VInt (z : Z)
| VStr (s : string)
| VHistory (m : HistoryPolicy.t)
| VReliability (m : ReliabilityPolicy.t)
| VDurability (m : DurabilityPolicy.t)
| VLiveliness (m : LivelinessPolicy.t)
| VDuration (nanoseconds : Z)
| VException (e : PyExc)
with PyExc :=
| mkExc (cls : string) (args : list PyVal).

Definition exc_class (e : PyExc) : string := let 'mkExc c _ := e in c.
Definition exc_args (e : PyExc) : list PyVal := let 'mkExc _ a := e in a.

Definition is_None (v : PyVal) : bool :=
  match v with VNone => true | _ => false end.

(** The integer an instance of [int] denotes: [bool] and every [IntEnum]
    class are subclasses of [int]. *)
Definition as_int (v : PyVal) : option Z :=
  match v with
  | VBool b => Some (if b then 1 else 0)
  | VInt z => Some z
  | VHistory m => Some (enum_value m)
  | VReliability m => Some (enum_value m)
  | VDurability m => Some (enum_value m)
  | VLiveliness m => Some (enum_value m)
  | _ => None
  end.

(** [isinstance(v, int)], [isinstance(v, Duration)], [isinstance(v, bool)]. *)
Definition isinstance_int (v : PyVal) : bool :=
  match as_int v with Some _ => true | None => false end.

Definition isinstance_Duration (v : PyVal) : bool :=
  match v with VDuration _ => true | _ => false end.

Definition isinstance_bool (v : PyVal) : bool :=
  match v with VBool _ => true | _ => false end.

(** [a == b]: instances of [int] compare by the integer they denote and
    strings by their characters.  [Duration] is defined outside this module;
    following the specification's description of it as a nanosecond interval,
    two durations are equal when their nanoseconds are.  Exception instances
    compare by identity, which no slot of a profile relies on. *)
Definition py_eq (a b : PyVal) : bool :=
  match as_int a, as_int b with
  | Some x, Some y => x =? y
  | _, _ =>
      match a, b with
      | VNone, VNone => true
      | VStr s, VStr t => String.eqb s t
      | VDuration x, VDuration y => x =? y
      | _, _ => false
      end
  end.

(** [repr(v)].  The default [repr] of a [Duration] carries a memory address,
    which is left out. *)
Fixpoint py_repr (v : PyVal) : string :=
  match v with
  | VNone => "None"
  | VBool b => if b then "True" else "False"
  | VInt z => repr_int z
  | VStr s => "'" +:+ s +:+ "'"
  | VHistory m =>
      "<" +:+ enum_qualname (E:=HistoryPolicy.t) +:+ "." +:+ enum_name m +:+ ": "
          +:+ repr_int (enum_value m) +:+ ">"
  | VReliability m =>
      "<" +:+ enum_qualname (E:=ReliabilityPolicy.t) +:+ "." +:+ enum_name m +:+ ": "
          +:+ repr_int (enum_value m) +:+ ">"
  | VDurability m =>
      "<" +:+ enum_qualname (E:=DurabilityPolicy.t) +:+ "." +:+ enum_name m +:+ ": "
          +:+ repr_int (enum_value m) +:+ ">"
  | VLiveliness m =>
      "<" +:+ enum_qualname (E:=LivelinessPolicy.t) +:+ "." +:+ enum_name m +:+ ": "
          +:+ repr_int (enum_value m) +:+ ">"
  | VDuration _ => "<rclpy.duration.Duration object>"
  | VException (mkExc c a) =>
      c +:+ "(" +:+ str_join ", " (map py_repr a) +:+ ")"
  end.

(** [str(v)] *)
Definition py_str (v : PyVal) : string :=
  match v with
  | VStr s => s
  | _ => py_repr v
  end.

(** *** Exception objects

    Calling an exception class on arguments allocates with
    [BaseException.__new__], which stores the call's arguments in [args],
    and then runs the class's [__init__]. *)

Definition BaseException__new__ (cls : string) (args : list PyVal) : PyExc :=
  mkExc cls args.

(** [BaseException.__init__(self, *args)]: [self.args = args]. *)
Definition BaseException__init__ (self : PyExc) (args : list PyVal) : PyExc :=
  mkExc (exc_class self) args.

(** [BaseException.__str__]. *)
Definition BaseException__str__ (self : PyExc) : string :=
  match exc_args self with
  | [] => ""
  | [a] => py_str a
  | a => "(" +:+ str_join ", " (map py_repr a) +:+ ")"
  end.

(** Built-in exception classes, none of which overrides [__init__]. *)
Definition builtin_exception (cls : string) (args : list PyVal) : PyExc :=
  BaseException__init__ (BaseException__new__ cls args) args.

Definition Exception := builtin_exception "Exception".
Definition AssertionError := builtin_exception "AssertionError".
Definition ValueError := builtin_exception "ValueError".
Definition KeyError := builtin_exception "KeyError".
Definition AttributeError := builtin_exception "AttributeError".
Definition TypeError := builtin_exception "TypeError".

(** [class InvalidQoSProfileException(Exception)]: its [__init__] calls
    [Exception(self, ...)], which builds another exception object and drops
    it; [self] is left as [__new__] made it. *)
Module InvalidQoSProfileException.
Definition __init__ (self : PyExc) (message : string) : PyExc :=
  let _ := Exception [VException self; VStr ("Invalid QoSProfile: " +:+ message)] in
  self.

(** [InvalidQoSProfileException(message)] *)
Definition __call__ (message : string) : PyExc :=
  __init__ (BaseException__new__ "InvalidQoSProfileException" [VStr message]) message.
End InvalidQoSProfileException.

(** *** Results and the method monad *)

Inductive result (A : Type) :=
| Ok (a : A)
| Raise (e : PyExc).
Arguments Ok {A} a.
Arguments Raise {A} e.

#[export] Instance result_ret : MRet result := fun A a => Ok a.
#[export] Instance result_bind : MBind result :=
  fun A B f r => match r with Ok a => f a | Raise e => Raise e end.

(** A warning issued through [warnings.warn(message)]; the category is the
    default [UserWarning], and the warning filters are the default ones, under
    which a warning is reported and execution goes on. *)
Inductive Warning := UserWarning (message : string).

(** The state a method runs in: the slots of [self] and the warnings issued
    so far.  A raised exception keeps the state it was raised in. *)
Definition State : Type := gmap string PyVal * list Warning.

Definition M (A : Type) : Type := State -> result A * State.

#[export] Instance M_ret : MRet M := fun A a s => (Ok a, s).
#[export] Instance M_bind : MBind M :=
  fun A B f m s =>
    match m s with
    | (Ok a, s') => f a s'
    | (Raise e, s') => (Raise e, s')
    end.

Definition raise {A} (e : PyExc) : M A := fun s => (Raise e, s).

Definition lift {A} (r : result A) : M A := fun s => (r, s).

(** Run a read-only method on [self]. *)
Definition read {A} (f : gmap string PyVal -> result A) : M A :=
  fun s => (f s.1, s).

(** [self.<slot> = v] *)
Definition setattr (slot : string) (v : PyVal) : M unit :=
  fun s => (Ok tt, (<[slot := v]> s.1, s.2)).

(** [self.<slot>]; reading a slot that was never assigned raises. *)
Definition getattr (slot : string) (self : gmap string PyVal) : result PyVal :=
  match self !! slot with
  | Some v => Ok v
  | None => Raise (AttributeError [VStr slot])
  end.

(** [warnings.warn(message)] *)
Definition warn (message : string) : M unit :=
  fun s => (Ok tt, (s.1, (s.2 ++ [UserWarning message])%list)).

(** [assert b] *)
Definition assert (b : bool) : M unit :=
  if b then mret tt else raise (AssertionError []).

(** The member of an enumeration a value denotes, if any: the member whose
    value equals the integer. *)
Definition member_of {E} `{IntEnum E} (v : PyVal) : option E :=
  as_int v ≫= enum_lookup_value.

(** [cls(value)] on an enumeration class: the member whose value equals
    [value], [ValueError] when there is none. *)
Definition enum_call {E} `{IntEnum E} (v : PyVal) : result E :=
  match member_of v with
  | Some m => Ok m
  | None =>
      Raise (ValueError
               [VStr (py_repr v +:+ " is not a valid " +:+ enum_qualname (E:=E))])
  end.

(** [cls[name]] on an enumeration class. *)
Definition enum_getitem {E} `{IntEnum E} (k : string) : result E :=
  match enum_lookup_name k with
  | Some m => Ok m
  | None => Raise (KeyError [VStr k])
  end.

(** [d[key]] on a dictionary with string keys. *)
Definition dict_getitem (d : gmap string PyVal) (key : string) : result PyVal :=
  match d !! key with
  | Some v => Ok v
  | None => Raise (KeyError [VStr key])
  end.

(** [qos_policy_name_from_kind]: [QoSPolicyKind(policy_kind).name]. *)
Definition qos_policy_name_from_kind (policy_kind : PyVal) : result string :=
  k ← enum_call (E:=QoSPolicyKind) policy_kind; mret (enum_name k).

(** ** QoSPolicyEnum

    The helpers every policy enumeration inherits.  The deprecated
    [RMW_QOS_POLICY_...] names are descriptors the decorator attaches to the
    class afterwards; they are not entries of [__members__]. *)
Module QoSPolicyEnum.
(** [short_keys]: the lower-cased names of the members that do not start
    with [RMW]. *)
Definition short_keys (E : Type) `{IntEnum E} : list string :=
  map str_lower
      (List.filter (fun k => negb (str_startswith k "RMW"))
                   (map fst (enum__members__ (E:=E)))).

(** [get_from_short_key]: [cls[name.upper()].value]. *)
Definition get_from_short_key (E : Type) `{IntEnum E} (name : string) : result Z :=
  m ← enum_getitem (E:=E) (str_upper name); mret (enum_value m).

(** The loop of the [short_key] property over [__members__.items()]. *)
Fixpoint short_key_loop {E} `{IntEnum E} (self : E) (items : list (string * E))
  : option string :=
  match items with
  | [] => None
  | (k, v) :: items' =>
      if str_startswith k "RMW" then short_key_loop self items'
      else if enum_value self =? enum_value v then Some (str_lower k)
      else short_key_loop self items'
  end.

Definition short_key {E} `{IntEnum E} (self : E) : result string :=
  match short_key_loop self enum__members__ with
  | Some k => Ok k
  | None =>
      Raise (AttributeError
               [VStr ("failed to find value " +:+ repr_int (enum_value self)
                      +:+ " in " +:+ enum_qualname (E:=E))])
  end.
End QoSPolicyEnum.

(** ** QoSProfile *)

(** The keyword arguments of [QoSProfile(...)]; an argument left out has its
    default, [None]. *)
Record kwargs := {
  kw_history : PyVal;
  kw_depth : PyVal;
  kw_reliability : PyVal;
  kw_durability : PyVal;
  kw_lifespan : PyVal;
  kw_deadline : PyVal;
  kw_liveliness : PyVal;
  kw_liveliness_lease_duration : PyVal;
  kw_avoid_ros_namespace_conventions : PyVal;
}.

(** Modelled from the spec: [_rclpy.rmw_qos_profile_t], whose class is not
    part of this module; the spec describes it as the backend record
    carrying the nine fields, durations in the backend's tick representation
    (nanoseconds here). *)
Record rmw_qos_profile_t := {
  qos_history : HistoryPolicy.t;
  qos_depth : Z;
  qos_reliability : ReliabilityPolicy.t;
  qos_durability : DurabilityPolicy.t;
  qos_lifespan : Z;
  qos_deadline : Z;
  qos_liveliness : LivelinessPolicy.t;
  qos_liveliness_lease_duration : Z;
  qos_avoid_ros_namespace_conventions : bool;
}.

(** Modelled from the spec: the conversions of the arguments of
    [_rclpy.rmw_qos_profile_t(...)], whose constructor is not part of this
    module: a policy argument is an integer that denotes a member, the depth
    an integer, the flag a [bool]; an argument of another type is refused
    with [TypeError]. *)
Definition c_enum {E} `{IntEnum E} (v : PyVal) : result E :=
  match member_of v with
  | Some m => Ok m
  | None => Raise (TypeError [])
  end.

Definition c_int (v : PyVal) : result Z :=
  match as_int v with
  | Some z => Ok z
  | None => Raise (TypeError [])
  end.

Definition c_bool (v : PyVal) : result bool :=
  match v with
  | VBool b => Ok b
  | _ => Raise (TypeError [])
  end.

(** Modelled from the spec: [_rclpy.rmw_qos_profile_t(...)], the record of
    the nine arguments, the durations already in ticks. *)
Definition rmw_qos_profile_t__call__
    (history depth reliability durability : PyVal) (lifespan deadline : Z)
    (liveliness : PyVal) (liveliness_lease_duration : Z)
    (avoid_ros_namespace_conventions : PyVal) : result rmw_qos_profile_t :=
  a1 ← c_enum history;
  a2 ← c_int depth;
  a3 ← c_enum reliability;
  a4 ← c_enum durability;
  a7 ← c_enum liveliness;
  a9 ← c_bool avoid_ros_namespace_conventions;
  mret {| qos_history := a1; qos_depth := a2; qos_reliability := a3;
          qos_durability := a4; qos_lifespan := lifespan; qos_deadline := deadline;
          qos_liveliness := a7;
          qos_liveliness_lease_duration := liveliness_lease_duration;
          qos_avoid_ros_namespace_conventions := a9 |}.

(** Modelled from the spec: [Duration.get_c_duration], the conversion of a
    duration to the backend's ticks. *)
Definition get_c_duration (v : PyVal) : result Z :=
  match v with
  | VDuration ns => Ok ns
  | _ => Raise (AttributeError [VStr "get_c_duration"])
  end.

(** Anything a profile can be compared with. *)
Inductive PyObject :=
| Profile (slots : gmap string PyVal)
| Value (v : PyVal).

(** [all(f(x) for x in l)]: stops at the first false element. *)
Fixpoint py_all {A} (f : A -> result bool) (l : list A) : result bool :=
  match l with
  | [] => Ok true
  | x :: l' => f x ≫= (fun b : bool => if b then py_all f l' else Ok false)
  end.

Module QoSProfile.

Definition __slots__ : list string :=
  [ "_history";
    "_depth";
    "_reliability";
    "_durability";
    "_lifespan";
    "_deadline";
    "_liveliness";
    "_liveliness_lease_duration";
    "_avoid_ros_namespace_conventions" ].

(** *** Properties: getters *)

Definition history := getattr "_history".
Definition reliability := getattr "_reliability".
Definition durability := getattr "_durability".
Definition depth := getattr "_depth".
Definition lifespan := getattr "_lifespan".
Definition deadline := getattr "_deadline".
Definition liveliness := getattr "_liveliness".
Definition liveliness_lease_duration := getattr "_liveliness_lease_duration".
Definition avoid_ros_namespace_conventions :=
  getattr "_avoid_ros_namespace_conventions".

(** *** Properties: setters *)

Definition history_setter (value : PyVal) : M unit :=
  assert (match value with VHistory _ => true | _ => false end
          || isinstance_int value);;
  m ← lift (enum_call (E:=QoSHistoryPolicy.t) value);
  setattr "_history" (VHistory m).

Definition reliability_setter (value : PyVal) : M unit :=
  assert (match value with VReliability _ => true | _ => false end
          || isinstance_int value);;
  m ← lift (enum_call (E:=QoSReliabilityPolicy.t) value);
  setattr "_reliability" (VReliability m).

Definition durability_setter (value : PyVal) : M unit :=
  assert (match value with VDurability _ => true | _ => false end
          || isinstance_int value);;
  m ← lift (enum_call (E:=QoSDurabilityPolicy.t) value);
  setattr "_durability" (VDurability m).

Definition zero_depth_message : string :=
  "A zero depth with KEEP_LAST doesn't make sense; no data could be stored. "
  +:+ "This will be interpreted as SYSTEM_DEFAULT".

Definition depth_setter (value : PyVal) : M unit :=
  assert (isinstance_int value);;
  h ← read history;
  (if py_eq h (VHistory QoSHistoryPolicy.KEEP_LAST) && py_eq value (VInt 0)
   then warn zero_depth_message
   else mret tt);;
  setattr "_depth" value.

Definition lifespan_setter (value : PyVal) : M unit :=
  assert (isinstance_Duration value);;
  setattr "_lifespan" value.

Definition deadline_setter (value : PyVal) : M unit :=
  assert (isinstance_Duration value);;
  setattr "_deadline" value.

Definition liveliness_setter (value : PyVal) : M unit :=
  assert (match value with VLiveliness _ => true | _ => isinstance_int value end);;
  m ← lift (enum_call (E:=QoSLivelinessPolicy.t) value);
  setattr "_liveliness" (VLiveliness m).

Definition liveliness_lease_duration_setter (value : PyVal) : M unit :=
  assert (isinstance_Duration value);;
  setattr "_liveliness_lease_duration" value.

Definition avoid_ros_namespace_conventions_setter (value : PyVal) : M unit :=
  assert (isinstance_bool value);;
  setattr "_avoid_ros_namespace_conventions" value.

(** *** Construction *)

Section WithDefaults.
(** The class attribute [__qos_profile_default_dict]: the dictionary the
    backend gives for its predefined profile [qos_profile_default]. *)
Variable __qos_profile_default_dict : gmap string PyVal.

(** [d[key] if arg is None else arg] *)
Definition default_if_None (key : string) (arg : PyVal) : M PyVal :=
  if is_None arg then lift (dict_getitem __qos_profile_default_dict key)
  else mret arg.

Definition __init__ (a : kwargs) : M unit :=
  history ←
    (if is_None (kw_history a) then
       if is_None (kw_depth a) then
         raise (InvalidQoSProfileException.__call__
                  "History and/or depth settings are required.")
       else mret (VHistory QoSHistoryPolicy.KEEP_LAST)
     else mret (kw_history a));
  history_setter history;;
  h ← read QoSProfile.history;
  (if py_eq (VHistory QoSHistoryPolicy.KEEP_LAST) h && is_None (kw_depth a)
   then raise (InvalidQoSProfileException.__call__
                 "History set to KEEP_LAST without a depth setting.")
   else mret tt);;
  (default_if_None "depth" (kw_depth a) ≫= depth_setter);;
  (default_if_None "reliability" (kw_reliability a) ≫= reliability_setter);;
  (default_if_None "durability" (kw_durability a) ≫= durability_setter);;
  (default_if_None "lifespan" (kw_lifespan a) ≫= lifespan_setter);;
  (default_if_None "deadline" (kw_deadline a) ≫= deadline_setter);;
  (default_if_None "liveliness" (kw_liveliness a) ≫= liveliness_setter);;
  (default_if_None "liveliness_lease_duration" (kw_liveliness_lease_duration a)
     ≫= liveliness_lease_duration_setter);;
  (default_if_None "avoid_ros_namespace_conventions"
                   (kw_avoid_ros_namespace_conventions a)
     ≫= avoid_ros_namespace_conventions_setter).

(** [QoSProfile(...)]: a new object with no slot assigned, initialised by
    [__init__]; the warnings issued so far are [w]. *)
Definition __call__ (a : kwargs) (w : list Warning)
  : result (gmap string PyVal) * list Warning :=
  match __init__ a (∅, w) with
  | (Ok _, (self, w')) => (Ok self, w')
  | (Raise e, (_, w')) => (Raise e, w')
  end.
End WithDefaults.

(** *** Other methods *)

Definition get_c_qos_profile (self : gmap string PyVal) : result rmw_qos_profile_t :=
  a1 ← history self;
  a2 ← depth self;
  a3 ← reliability self;
  a4 ← durability self;
  a5 ← lifespan self ≫= get_c_duration;
  a6 ← deadline self ≫= get_c_duration;
  a7 ← liveliness self;
  a8 ← liveliness_lease_duration self ≫= get_c_duration;
  a9 ← avoid_ros_namespace_conventions self;
  rmw_qos_profile_t__call__ a1 a2 a3 a4 a5 a6 a7 a8 a9.

Definition __eq__ (self : gmap string PyVal) (other : PyObject) : result bool :=
  match other with
  | Value _ => Ok false
  | Profile other =>
      py_all (fun slot =>
                x ← getattr slot self;
                y ← getattr slot other;
                mret (py_eq x y))
             __slots__
  end.

End QoSProfile.

(** ** Compatibility of two profiles *)

(** Modelled from the spec: [_rclpy.QoSCompatibility], the verdict of the
    checker, "one of {OK, WARNING, ERROR}". *)
Module QoSCompatibility.
Inductive t := OK | WARNING | ERROR.

(** [QoSCompatibility(v)] on a member is that member. *)
Definition __call__ (v : t) : t := v.
End QoSCompatibility.

(** Modelled from the spec: the structure [_rclpy.rclpy_qos_check_compatible]
    returns, a verdict and the reason for it. *)
Record QoSCheckCompatibleResult := {
  compatibility : QoSCompatibility.t;
  reason : string;
}.

Section CompatibilityChecker.
(** The backend's comparison of two backend records. *)
Variable rclpy_qos_check_compatible :
  rmw_qos_profile_t -> rmw_qos_profile_t -> QoSCheckCompatibleResult.

Definition qos_check_compatible (publisher_qos subscription_qos : gmap string PyVal)
  : result (QoSCompatibility.t * string) :=
  p ← QoSProfile.get_c_qos_profile publisher_qos;
  s ← QoSProfile.get_c_qos_profile subscription_qos;
  let result := rclpy_qos_check_compatible p s in
  let compatibility := QoSCompatibility.__call__ (compatibility result) in
  let reason := reason result in
  mret (compatibility, reason).
End CompatibilityChecker.

(** The native comparison [qos_check_compatible] delegates to is not part of
    this module; the definitions of [_rclpy] below follow section 4.4 of the
    specification. *)
Module _rclpy.
Import QoSCompatibility.

(** Modelled from the spec: the reliability rule of the missing backend.
    "Publisher RELIABLE with subscriber BEST_EFFORT: OK.  Publisher
    BEST_EFFORT with subscriber RELIABLE: ERROR.  Equal concrete values: OK.
    Either side SYSTEM_DEFAULT/UNKNOWN/BEST_AVAILABLE: WARNING." *)
Definition reliability_rule (pub sub : ReliabilityPolicy.t) : t :=
  match pub, sub with
  | ReliabilityPolicy.RELIABLE, ReliabilityPolicy.BEST_EFFORT => OK
  | ReliabilityPolicy.BEST_EFFORT, ReliabilityPolicy.RELIABLE => ERROR
  | ReliabilityPolicy.RELIABLE, ReliabilityPolicy.RELIABLE => OK
  | ReliabilityPolicy.BEST_EFFORT, ReliabilityPolicy.BEST_EFFORT => OK
  | _, _ => WARNING
  end.

(** Modelled from the spec: the durability rule of the missing backend.
    "Publisher TRANSIENT_LOCAL with subscriber VOLATILE or TRANSIENT_LOCAL: OK.
    Publisher VOLATILE with subscriber TRANSIENT_LOCAL: ERROR.  Equal concrete
    values: OK.  Indeterminate values: WARNING." *)
Definition durability_rule (pub sub : DurabilityPolicy.t) : t :=
  match pub, sub with
  | DurabilityPolicy.TRANSIENT_LOCAL, DurabilityPolicy.VOLATILE => OK
  | DurabilityPolicy.TRANSIENT_LOCAL, DurabilityPolicy.TRANSIENT_LOCAL => OK
  | DurabilityPolicy.VOLATILE, DurabilityPolicy.TRANSIENT_LOCAL => ERROR
  | DurabilityPolicy.VOLATILE, DurabilityPolicy.VOLATILE => OK
  | _, _ => WARNING
  end.

(** The liveliness kinds that are not SYSTEM_DEFAULT, UNKNOWN or
    BEST_AVAILABLE. *)
Definition liveliness_concrete (k : LivelinessPolicy.t) : bool :=
  match k with
  | LivelinessPolicy.AUTOMATIC | LivelinessPolicy.MANUAL_BY_TOPIC => true
  | _ => false
  end.

Definition liveliness_kind_eqb (a b : LivelinessPolicy.t) : bool :=
  enum_value a =? enum_value b.

Section Rules.
(** The durations the backend reads as "no deadline" and "no lease":
    the sentinels are constants of the backend. *)
Variable deadline_unspecified : Z -> bool.
Variable lease_unspecified : Z -> bool.

(** Modelled from the spec: the deadline rule of the missing backend.
    "Both concrete and publisher's deadline at most the subscriber's: OK;
    publisher's deadline longer: ERROR; indeterminate: WARNING." *)
Definition deadline_rule (pub sub : Z) : t :=
  if deadline_unspecified pub || deadline_unspecified sub then WARNING
  else if pub <=? sub then OK
  else ERROR.

(** Modelled from the spec: the liveliness rule of the missing backend.
    "Mismatched concrete kinds: ERROR; matching kind and publisher lease at
    most the subscriber's: OK; matching kind but publisher lease longer:
    ERROR; indeterminate values on either side: WARNING." *)
Definition liveliness_rule (pub sub : rmw_qos_profile_t) : t :=
  let pk := qos_liveliness pub in
  let sk := qos_liveliness sub in
  let pl := qos_liveliness_lease_duration pub in
  let sl := qos_liveliness_lease_duration sub in
  if liveliness_concrete pk && liveliness_concrete sk
     && negb (liveliness_kind_eqb pk sk) then ERROR
  else if negb (liveliness_concrete pk) || negb (liveliness_concrete sk)
          || lease_unspecified pl || lease_unspecified sl then WARNING
  else if pl <=? sl then OK
  else ERROR.

(** The verdict of each compared policy, under the kind that names it. *)
Definition policy_verdicts (pub sub : rmw_qos_profile_t)
  : list (QoSPolicyKind * t) :=
  [ (RELIABILITY, reliability_rule (qos_reliability pub) (qos_reliability sub));
    (DURABILITY, durability_rule (qos_durability pub) (qos_durability sub));
    (DEADLINE, deadline_rule (qos_deadline pub) (qos_deadline sub));
    (LIVELINESS, liveliness_rule pub sub) ].

Definition is_ERROR (v : t) : bool :=
  match v with ERROR => true | _ => false end.
Definition is_WARNING (v : t) : bool :=
  match v with WARNING => true | _ => false end.
Definition is_OK (v : t) : bool :=
  match v with OK => true | _ => false end.

(** Modelled from the spec: the final verdict of the missing backend.
    "ERROR if any policy yields ERROR; else WARNING if any policy yields
    WARNING; else OK." *)
Definition final_verdict (l : list (QoSPolicyKind * t)) : t :=
  if existsb (fun kv => is_ERROR kv.2) l then ERROR
  else if existsb (fun kv => is_WARNING kv.2) l then WARNING
  else OK.

(** Modelled from the spec: the reason text of the missing backend, which
    "aggregates every non-OK contributing policy", each named by its kind. *)
Definition reason_text (l : list (QoSPolicyKind * t)) : string :=
  str_join ", "
    (map (fun kv => enum_name kv.1)
         (List.filter (fun kv => negb (is_OK kv.2)) l)).

(** Modelled from the spec: [_rclpy.rclpy_qos_check_compatible], the missing
    native comparison of two backend records. *)
Definition rclpy_qos_check_compatible (pub sub : rmw_qos_profile_t)
  : QoSCheckCompatibleResult :=
  let l := policy_verdicts pub sub in
  {| compatibility := final_verdict l; reason := reason_text l |}.
End Rules.
End _rclpy.

(** ** Vocabulary of the statements *)

(** The nine fields of a profile. *)
Inductive Field :=
| F_history
| F_depth
| F_reliability
| F_durability
| F_lifespan
| F_deadline
| F_liveliness
| F_liveliness_lease_duration
| F_avoid_ros_namespace_conventions.

#[export] Instance Field_eq_dec : EqDecision Field.
Proof. solve_decision. Defined.

Definition all_fields : list Field :=
  [ F_history; F_depth; F_reliability; F_durability; F_lifespan; F_deadline;
    F_liveliness; F_liveliness_lease_duration; F_avoid_ros_namespace_conventions ].

(** The name of a field: its keyword and its key in the default dictionary. *)
Definition field_key (f : Field) : string :=
  match f with
  | F_history => "history"
  | F_depth => "depth"
  | F_reliability => "reliability"
  | F_durability => "durability"
  | F_lifespan => "lifespan"
  | F_deadline => "deadline"
  | F_liveliness => "liveliness"
  | F_liveliness_lease_duration => "liveliness_lease_duration"
  | F_avoid_ros_namespace_conventions => "avoid_ros_namespace_conventions"
  end.

(** The slot behind a field: [_] followed by its name. *)
Definition field_slot (f : Field) : string := "_" +:+ field_key f.

Definition field_arg (f : Field) (a : kwargs) : PyVal :=
  match f with
  | F_history => kw_history a
  | F_depth => kw_depth a
  | F_reliability => kw_reliability a
  | F_durability => kw_durability a
  | F_lifespan => kw_lifespan a
  | F_deadline => kw_deadline a
  | F_liveliness => kw_liveliness a
  | F_liveliness_lease_duration => kw_liveliness_lease_duration a
  | F_avoid_ros_namespace_conventions => kw_avoid_ros_namespace_conventions a
  end.

(** [profile.<field> = value]: the assignment goes through the property's
    setter. *)
Definition setter (f : Field) : PyVal -> M unit :=
  match f with
  | F_history => QoSProfile.history_setter
  | F_depth => QoSProfile.depth_setter
  | F_reliability => QoSProfile.reliability_setter
  | F_durability => QoSProfile.durability_setter
  | F_lifespan => QoSProfile.lifespan_setter
  | F_deadline => QoSProfile.deadline_setter
  | F_liveliness => QoSProfile.liveliness_setter
  | F_liveliness_lease_duration => QoSProfile.liveliness_lease_duration_setter
  | F_avoid_ros_namespace_conventions =>
      QoSProfile.avoid_ros_namespace_conventions_setter
  end.

(** The value a field holds once [v] was assigned to it; [None] when the
    assignment is refused. *)
Definition field_store (f : Field) (v : PyVal) : option PyVal :=
  match f with
  | F_history => VHistory <$> member_of v
  | F_reliability => VReliability <$> member_of v
  | F_durability => VDurability <$> member_of v
  | F_liveliness => VLiveliness <$> member_of v
  | F_depth => if isinstance_int v then Some v else None
  | F_lifespan | F_deadline | F_liveliness_lease_duration =>
      if isinstance_Duration v then Some v else None
  | F_avoid_ros_namespace_conventions =>
      if isinstance_bool v then Some v else None
  end.

(** A value of the type and in the range of a field. *)
Definition field_valid (f : Field) (v : PyVal) : bool :=
  match field_store f v with Some _ => true | None => false end.

(** What a field may hold in a constructed profile: a member of its
    enumeration, an [int], a [Duration], a [bool]. *)
Definition field_holds (f : Field) (v : PyVal) : bool :=
  match f, v with
  | F_history, VHistory _ => true
  | F_reliability, VReliability _ => true
  | F_durability, VDurability _ => true
  | F_liveliness, VLiveliness _ => true
  | F_depth, _ => isinstance_int v
  | (F_lifespan | F_deadline | F_liveliness_lease_duration), VDuration _ => true
  | F_avoid_ros_namespace_conventions, VBool _ => true
  | _, _ => false
  end.

(** The value the constructor assigns to a field other than history: the
    argument, or the default dictionary's entry when it is omitted. *)
Definition supplied (dflt : gmap string PyVal) (f : Field) (a : kwargs)
  : option PyVal :=
  if is_None (field_arg f a) then dflt !! field_key f else Some (field_arg f a).

(** The fields the constructor fills from the default dictionary. *)
Definition defaulted_fields : list Field :=
  [ F_reliability; F_durability; F_lifespan; F_deadline; F_liveliness;
    F_liveliness_lease_duration; F_avoid_ros_namespace_conventions ].

(** Constructor arguments with in-range values: a history that is omitted or
    valid, and for every other field a valid argument or, when it is omitted,
    a valid entry of the default dictionary. *)
Definition kwargs_in_range (dflt : gmap string PyVal) (a : kwargs) : bool :=
  (is_None (kw_history a) || field_valid F_history (kw_history a))
  && forallb (fun f => match supplied dflt f a with
                       | Some v => field_valid f v
                       | None => false
                       end)
             (F_depth :: defaulted_fields).

(** The profiles a program can hold: constructed ones, and those a
    successful assignment to a field makes of them. *)
Inductive reachable (dflt : gmap string PyVal) : gmap string PyVal -> Prop :=
| reachable_new a w self w' :
    QoSProfile.__call__ dflt a w = (Ok self, w') ->
    reachable dflt self
| reachable_set self f v w self' w' :
    reachable dflt self ->
    setter f v (self, w) = (Ok tt, (self', w')) ->
    reachable dflt self'.

(** The two diagnostics of the constructor's [raise] sites. *)
Definition msg_required : string := "History and/or depth settings are required.".
Definition msg_keep_last : string := "History set to KEEP_LAST without a depth setting.".

(** The round trip of a member through its short key. *)
Definition short_key_roundtrip {E} `{IntEnum E} (m : E) : Prop :=
  In m enum_members
  /\ In (str_lower (enum_name m)) (QoSPolicyEnum.short_keys E)
  /\ QoSPolicyEnum.get_from_short_key E (str_lower (enum_name m)) = Ok (enum_value m)
  /\ forall s, str_lower s = str_lower (enum_name m) ->
               QoSPolicyEnum.get_from_short_key E s = Ok (enum_value m).

(** What every field of a constructed profile satisfies. *)
Definition profile_inv (self : gmap string PyVal) : Prop :=
  forall f, exists v, self !! field_slot f = Some v /\ field_holds f v = true.

(** The comparison [__eq__] makes of one slot of two profiles. *)
Definition slot_eq (p q : gmap string PyVal) (f : Field) : bool :=
  match p !! field_slot f, q !! field_slot f with
  | Some x, Some y => py_eq x y
  | _, _ => false
  end.

(** *** A summary of the constructor

    [__init__] resolves the history, checks it against the depth, and assigns
    the other eight fields in turn; [init_spec] says what comes out. *)

(** The exceptions a setter raises: a failed [assert], or the enumeration
    refusing the value. *)
Definition refusal (e : PyExc) : Prop :=
  e = AssertionError [] \/ exists msg, e = ValueError [VStr msg].

(** The exceptions of the constructor that are not its own. *)
Definition foreign (e : PyExc) : Prop :=
  refusal e \/ exists k, e = KeyError [VStr k].

(** The class of the exception a result carries. *)
Definition exc_class_of {A} (r : result A) : option string :=
  match r with Ok _ => None | Raise e => Some (exc_class e) end.

Definition is_KEEP_LAST (h : HistoryPolicy.t) : bool :=
  match h with HistoryPolicy.KEEP_LAST => true | _ => false end.

(** The warnings the depth setter issues when the history is [h]. *)
Definition zero_depth_warning (h v : PyVal) : list Warning :=
  if py_eq h (VHistory HistoryPolicy.KEEP_LAST) && py_eq v (VInt 0)
  then [UserWarning QoSProfile.zero_depth_message] else [].

(** One assignment of the constructor: [self.f = d[f] if f is None else f]. *)
Definition assign_field (dflt : gmap string PyVal) (a : kwargs) (f : Field) : M unit :=
  QoSProfile.default_if_None dflt (field_key f) (field_arg f a) ≫= setter f.

Fixpoint assign_fields (dflt : gmap string PyVal) (a : kwargs) (fs : list Field)
  : M unit :=
  match fs with
  | [] => mret tt
  | [f] => assign_field dflt a f
  | f :: fs' => assign_field dflt a f ;; assign_fields dflt a fs'
  end.

(** The constructor, from the check of the stored history on. *)
Definition init_rest (dflt : gmap string PyVal) (a : kwargs) : M unit :=
  h ← read QoSProfile.history;
  (if py_eq (VHistory QoSHistoryPolicy.KEEP_LAST) h && is_None (kw_depth a)
   then raise (InvalidQoSProfileException.__call__ msg_keep_last)
   else mret tt);;
  assign_field dflt a F_depth;;
  assign_fields dflt a defaulted_fields.

(** The value the constructor stores in a field other than history. *)
Definition resolve (dflt : gmap string PyVal) (a : kwargs) (f : Field) : option PyVal :=
  supplied dflt f a ≫= field_store f.

(** The history the constructor stores. *)
Definition resolve_history (a : kwargs) : option HistoryPolicy.t :=
  if is_None (kw_history a) then
    if is_None (kw_depth a) then None else Some HistoryPolicy.KEEP_LAST
  else member_of (kw_history a).

Definition resolved (dflt : gmap string PyVal) (a : kwargs) (f : Field) : option PyVal :=
  match f with
  | F_history => VHistory <$> resolve_history a
  | _ => resolve dflt a f
  end.

(** The warnings of a construction that reaches the depth assignment. *)
Definition depth_warning (dflt : gmap string PyVal) (a : kwargs) : list Warning :=
  match resolve_history a, resolve dflt a F_depth with
  | Some h, Some d => zero_depth_warning (VHistory h) d
  | _, _ => []
  end.

Definition store_all (fvs : list (Field * PyVal)) (self : gmap string PyVal)
  : gmap string PyVal :=
  foldl (fun o fv => <[field_slot fv.1 := fv.2]> o) self fvs.

Definition rest_spec (dflt : gmap string PyVal) (a : kwargs) (w : list Warning)
    (h : HistoryPolicy.t) (R : result unit * State) : Prop :=
  let s1 : gmap string PyVal := <["_history" := VHistory h]> ∅ in
  if is_KEEP_LAST h && is_None (kw_depth a)
  then R = (Raise (InvalidQoSProfileException.__call__ msg_keep_last), (s1, w))
  else
    match resolve dflt a F_depth with
    | None => exists e, R = (Raise e, (s1, w)) /\ foreign e
    | Some d =>
        let s2 := <["_depth" := d]> s1 in
        let w2 := (w ++ zero_depth_warning (VHistory h) d)%list in
        match mapM (resolve dflt a) defaulted_fields with
        | None => exists e self, R = (Raise e, (self, w2)) /\ foreign e
        | Some vs => R = (Ok tt, (store_all (zip defaulted_fields vs) s2, w2))
        end
    end.

Definition init_spec (dflt : gmap string PyVal) (a : kwargs) (w : list Warning)
    (R : result unit * State) : Prop :=
  match resolve_history a with
  | None =>
      exists e, R = (Raise e, (∅, w))
        /\ if is_None (kw_history a)
           then e = InvalidQoSProfileException.__call__ msg_required
           else refusal e
  | Some h => rest_spec dflt a w h R
  end.

(** *** Sample inputs *)

(** A default dictionary, with the values of the middleware's
    [qos_profile_default]. *)
Definition sample_default_dict : gmap string PyVal :=
  list_to_map
    [ ("history", VInt 1); ("depth", VInt 10); ("reliability", VInt 1);
      ("durability", VInt 2); ("lifespan", VDuration 0); ("deadline", VDuration 0);
      ("liveliness", VInt 0); ("liveliness_lease_duration", VDuration 0);
      ("avoid_ros_namespace_conventions", VBool false) ].

(** [QoSProfile()] *)
Definition no_kwargs : kwargs :=
  {| kw_history := VNone; kw_depth := VNone; kw_reliability := VNone;
     kw_durability := VNone; kw_lifespan := VNone; kw_deadline := VNone;
     kw_liveliness := VNone; kw_liveliness_lease_duration := VNone;
     kw_avoid_ros_namespace_conventions := VNone |}.

(** [QoSProfile(depth=d, reliability=r)], with an integer or a member for
    [r]. *)
Definition depth_reliability (d : Z) (r : PyVal) : kwargs :=
  {| kw_history := VNone; kw_depth := VInt d; kw_reliability := r;
     kw_durability := VNone; kw_lifespan := VNone; kw_deadline := VNone;
     kw_liveliness := VNone; kw_liveliness_lease_duration := VNone;
     kw_avoid_ros_namespace_conventions := VNone |}.

(** [QoSProfile(depth=d)] *)
Definition depth_only (d : Z) : kwargs := depth_reliability d VNone.

(** The profile [QoSProfile(depth=d, reliability=r)] makes under
    [sample_default_dict], slot by slot in the order of the assignments. *)
Definition sample_profile (d : Z) (r : ReliabilityPolicy.t) : gmap string PyVal :=
  <["_avoid_ros_namespace_conventions" := VBool false]>
    (<["_liveliness_lease_duration" := VDuration 0]>
       (<["_liveliness" := VLiveliness LivelinessPolicy.SYSTEM_DEFAULT]>
          (<["_deadline" := VDuration 0]>
             (<["_lifespan" := VDuration 0]>
                (<["_durability" := VDurability DurabilityPolicy.VOLATILE]>
                   (<["_reliability" := VReliability r]>
                      (<["_depth" := VInt d]>
                         (<["_history" := VHistory HistoryPolicy.KEEP_LAST]> ∅)))))))).

(** [QoSProfile(history=2)]: KEEP_ALL, given as an integer, and no depth. *)
Definition keep_all_kwargs : kwargs :=
  {| kw_history := VInt 2; kw_depth := VNone; kw_reliability := VNone;
     kw_durability := VNone; kw_lifespan := VNone; kw_deadline := VNone;
     kw_liveliness := VNone; kw_liveliness_lease_duration := VNone;
     kw_avoid_ros_namespace_conventions := VNone |}.

(** [sample_profile 5 RELIABLE] after [profile.history = 2]. *)
Definition keep_all_profile : gmap string PyVal :=
  <["_history" := VHistory HistoryPolicy.KEEP_ALL]>
    (sample_profile 5 ReliabilityPolicy.RELIABLE).

(** ** Deprecated member names *)

(** [class _DeprecatedPolicyValueAlias]: the descriptor behind a deprecated
    name of a policy class. *)
Module _DeprecatedPolicyValueAlias.
Record t := {
  replacement_name : string;
  deprecated_name : string;
}.

Definition __init__ (replacement_name deprecated_name : string) : t :=
  {| replacement_name := replacement_name; deprecated_name := deprecated_name |}.

(** [__get__(self, obj, policy_cls)]: warns, then [policy_cls[replacement_name]]. *)
Definition __get__ (E : Type) `{IntEnum E} (self : t) : M E :=
  warn (enum_qualname (E:=E) +:+ "." +:+ deprecated_name self +:+ " is deprecated. "
        +:+ "Use " +:+ enum_qualname (E:=E) +:+ "." +:+ replacement_name self
        +:+ " instead.");;
  lift (enum_getitem (replacement_name self)).
End _DeprecatedPolicyValueAlias.

(** [_deprecated_policy_value_aliases(pairs)]: the decorator sets one
    attribute of the class per pair, a later pair replacing an earlier one of
    the same name.  [attrs] are the attributes the class has besides its
    members. *)
Definition _deprecated_policy_value_aliases (pairs : list (string * string))
    (attrs : gmap string _DeprecatedPolicyValueAlias.t)
  : gmap string _DeprecatedPolicyValueAlias.t :=
  foldl (fun attrs p => <[p.1 := _DeprecatedPolicyValueAlias.__init__ p.2 p.1]> attrs)
        attrs pairs.

(** The pairs each policy class is decorated with. *)
Class Deprecated (E : Type) := deprecated_pairs : list (string * string).

#[export] Instance HistoryPolicy_deprecated : Deprecated HistoryPolicy.t :=
  [ ("RMW_QOS_POLICY_HISTORY_SYSTEM_DEFAULT", "SYSTEM_DEFAULT");
    ("RMW_QOS_POLICY_HISTORY_KEEP_LAST", "KEEP_LAST");
    ("RMW_QOS_POLICY_HISTORY_KEEP_ALL", "KEEP_ALL");
    ("RMW_QOS_POLICY_HISTORY_UNKNOWN", "UNKNOWN") ].

#[export] Instance ReliabilityPolicy_deprecated : Deprecated ReliabilityPolicy.t :=
  [ ("RMW_QOS_POLICY_RELIABILITY_SYSTEM_DEFAULT", "SYSTEM_DEFAULT");
    ("RMW_QOS_POLICY_RELIABILITY_RELIABLE", "RELIABLE");
    ("RMW_QOS_POLICY_RELIABILITY_BEST_EFFORT", "BEST_EFFORT");
    ("RMW_QOS_POLICY_RELIABILITY_UNKNOWN", "UNKNOWN") ].

#[export] Instance DurabilityPolicy_deprecated : Deprecated DurabilityPolicy.t :=
  [ ("RMW_QOS_POLICY_DURABILITY_SYSTEM_DEFAULT", "SYSTEM_DEFAULT");
    ("RMW_QOS_POLICY_DURABILITY_TRANSIENT_LOCAL", "TRANSIENT_LOCAL");
    ("RMW_QOS_POLICY_DURABILITY_VOLATILE", "VOLATILE");
    ("RMW_QOS_POLICY_DURABILITY_UNKNOWN", "UNKNOWN") ].

#[export] Instance LivelinessPolicy_deprecated : Deprecated LivelinessPolicy.t :=
  [ ("RMW_QOS_POLICY_LIVELINESS_SYSTEM_DEFAULT", "SYSTEM_DEFAULT");
    ("RMW_QOS_POLICY_LIVELINESS_AUTOMATIC", "AUTOMATIC");
    ("RMW_QOS_POLICY_LIVELINESS_MANUAL_BY_TOPIC", "MANUAL_BY_TOPIC");
    ("RMW_QOS_POLICY_DURABILITY_UNKNOWN", "UNKNOWN") ].

(** The attributes of a decorated policy class besides its members. *)
Definition class_attrs (E : Type) `{Deprecated E}
  : gmap string _DeprecatedPolicyValueAlias.t :=
  _deprecated_policy_value_aliases (deprecated_pairs (E:=E)) ∅.

(** [cls.<name>] on a decorated policy class, for the names this module
    gives it: a member, or the result of a descriptor's [__get__].  The
    class has further attributes, those of [IntEnum] and of
    [QoSPolicyEnum]; on any other name the answer is [None]. *)
Definition class_getattr (E : Type) `{IntEnum E} `{Deprecated E} (name : string)
  : option (M E) :=
  match enum_lookup_name name with
  | Some m => Some (mret m)
  | None => _DeprecatedPolicyValueAlias.__get__ E <$> class_attrs E !! name
  end.

(** ** More vocabulary *)

(** [profile.<field>]: the property's getter. *)
Definition getter (f : Field) : gmap string PyVal -> result PyVal :=
  match f with
  | F_history => QoSProfile.history
  | F_depth => QoSProfile.depth
  | F_reliability => QoSProfile.reliability
  | F_durability => QoSProfile.durability
  | F_lifespan => QoSProfile.lifespan
  | F_deadline => QoSProfile.deadline
  | F_liveliness => QoSProfile.liveliness
  | F_liveliness_lease_duration => QoSProfile.liveliness_lease_duration
  | F_avoid_ros_namespace_conventions => QoSProfile.avoid_ros_namespace_conventions
  end.

(** The [isinstance] test the setter of a field asserts. *)
Definition field_isinstance (f : Field) (v : PyVal) : bool :=
  match f with
  | F_history | F_reliability | F_durability | F_liveliness | F_depth =>
      isinstance_int v
  | F_lifespan | F_deadline | F_liveliness_lease_duration => isinstance_Duration v
  | F_avoid_ros_namespace_conventions => isinstance_bool v
  end.

(** The keyword arguments [history=p.history, depth=p.depth, ...] read from a
    profile. *)
Definition kwargs_of (p : gmap string PyVal) : result kwargs :=
  a1 ← QoSProfile.history p;
  a2 ← QoSProfile.depth p;
  a3 ← QoSProfile.reliability p;
  a4 ← QoSProfile.durability p;
  a5 ← QoSProfile.lifespan p;
  a6 ← QoSProfile.deadline p;
  a7 ← QoSProfile.liveliness p;
  a8 ← QoSProfile.liveliness_lease_duration p;
  a9 ← QoSProfile.avoid_ros_namespace_conventions p;
  mret {| kw_history := a1; kw_depth := a2; kw_reliability := a3;
          kw_durability := a4; kw_lifespan := a5; kw_deadline := a6;
          kw_liveliness := a7; kw_liveliness_lease_duration := a8;
          kw_avoid_ros_namespace_conventions := a9 |}.

(** [cls(z)] is [m] exactly when [z] is the value of [m]. *)
Definition values_round_trip (E : Type) `{IntEnum E} : Prop :=
  forall (m : E) (z : Z), enum_call (VInt z) = Ok m <-> enum_value m = z.

(** The short key of a member, and back. *)
Definition short_key_inverse {E} `{IntEnum E} (m : E) : Prop :=
  QoSPolicyEnum.short_key m = Ok (str_lower (enum_name m))
  /\ forall k, QoSPolicyEnum.short_key m = Ok k ->
               QoSPolicyEnum.get_from_short_key E k = Ok (enum_value m).


(** What the access to each deprecated name of a class does: the name is no
    member, and the access issues one warning naming both names and returns
    the member of the replacement name. *)
Definition deprecated_names_resolve (E : Type) `{IntEnum E} `{Deprecated E} : Prop :=
  forall dep rep, In (dep, rep) (deprecated_pairs (E:=E)) ->
    enum_lookup_name (E:=E) dep = None
    /\ str_startswith dep "RMW" = true
    /\ exists (m : E) (access : M E),
         enum_name m = rep
         /\ class_getattr E dep = Some access
         /\ forall s,
              access s
              = (Ok m,
                 (s.1,
                  (s.2 ++ [UserWarning (enum_qualname (E:=E) +:+ "." +:+ dep
                                        +:+ " is deprecated. Use "
                                        +:+ enum_qualname (E:=E) +:+ "." +:+ rep
                                        +:+ " instead.")])%list)).

(** The profile [QoSProfile(history=2)] makes under [sample_default_dict]. *)
Definition keep_all_constructed : gmap string PyVal :=
  <["_avoid_ros_namespace_conventions" := VBool false]>
    (<["_liveliness_lease_duration" := VDuration 0]>
       (<["_liveliness" := VLiveliness LivelinessPolicy.SYSTEM_DEFAULT]>
          (<["_deadline" := VDuration 0]>
             (<["_lifespan" := VDuration 0]>
                (<["_durability" := VDurability DurabilityPolicy.VOLATILE]>
                   (<["_reliability" := VReliability ReliabilityPolicy.RELIABLE]>
                      (<["_depth" := VInt 10]>
                         (<["_history" := VHistory HistoryPolicy.KEEP_ALL]> ∅)))))))).

(** Two lists of keyword arguments whose arguments are pairwise equal. *)
Definition kwargs_eq (a b : kwargs) : Prop :=
  forall f, py_eq (field_arg f a) (field_arg f b) = true.

(** * Properties *)

(** ** Examples *)

Example history_out_of_range :
  QoSProfile.history_setter (VInt 7) (∅, [])
  = (Raise (ValueError [VStr "7 is not a valid HistoryPolicy"]), (∅, [])).
Proof. reflexivity. Qed.

Example history_of_wrong_type :
  QoSProfile.history_setter (VStr "keep_last") (∅, [])
  = (Raise (AssertionError []), (∅, [])).
Proof. reflexivity. Qed.

Example keep_all_takes_the_default_depth :
  match QoSProfile.__call__ sample_default_dict keep_all_kwargs [] with
  | (Ok self, w) => (self !! "_history", self !! "_depth", w)
  | (Raise _, w) => (None, None, w)
  end
  = (Some (VHistory HistoryPolicy.KEEP_ALL), Some (VInt 10), []).
Proof. vm_compute. reflexivity. Qed.

Example short_keys_of_LivelinessPolicy :
  QoSPolicyEnum.short_keys LivelinessPolicy.t
  = ["system_default"; "automatic"; "manual_by_topic"; "unknown"; "best_available"].
Proof. reflexivity. Qed.

Example get_from_short_key_mixed_case :
  QoSPolicyEnum.get_from_short_key LivelinessPolicy.t "Manual_By_Topic" = Ok 3.
Proof. reflexivity. Qed.

Example get_from_short_key_unknown :
  QoSPolicyEnum.get_from_short_key HistoryPolicy.t "keep"
  = Raise (KeyError [VStr "KEEP"]).
Proof. reflexivity. Qed.

Example short_key_of_member :
  QoSPolicyEnum.short_key DurabilityPolicy.TRANSIENT_LOCAL = Ok "transient_local".
Proof. reflexivity. Qed.

Example name_of_kind_64 : qos_policy_name_from_kind (VInt 64) = Ok "LIFESPAN".
Proof. reflexivity. Qed.

Example sample_profiles_compared :
  qos_check_compatible (_rclpy.rclpy_qos_check_compatible (Z.eqb 0) (Z.eqb 0))
    (sample_profile 5 ReliabilityPolicy.BEST_EFFORT)
    (sample_profile 5 ReliabilityPolicy.RELIABLE)
  = Ok (QoSCompatibility.ERROR, "RELIABILITY, DEADLINE, LIVELINESS").
Proof. vm_compute. reflexivity. Qed.

Example sample_profiles_differ :
  QoSProfile.__eq__ (sample_profile 5 ReliabilityPolicy.BEST_EFFORT)
                    (Profile (sample_profile 5 ReliabilityPolicy.RELIABLE))
  = Ok false.
Proof. vm_compute. reflexivity. Qed.

Example profile_is_not_an_int :
  QoSProfile.__eq__ (sample_profile 5 ReliabilityPolicy.RELIABLE) (Value (VInt 5))
  = Ok false.
Proof. reflexivity. Qed.

(** ** The method monad *)

Lemma bind_M_eq {A B} (m : M A) (f : A -> M B) s :
  (m ≫= f) s
  = match m s with
    | (Ok a, s') => f a s'
    | (Raise e, s') => (Raise e, s')
    end.
Proof. reflexivity. Qed.

Lemma bind_ret_tt (m : M unit) s : (m ;; mret tt) s = m s.
Proof. rewrite bind_M_eq. destruct (m s) as [[[]|e] s']; reflexivity. Qed.

(** ** Enumeration lookups *)

Lemma enum_lookup_value_spec {E} `{IntEnum E} z (m : E) :
  enum_lookup_value z = Some m -> enum_value m = z /\ In m enum_members.
Proof.
  unfold enum_lookup_value. intros Hf. apply find_some in Hf as [Hin Heq].
  split; [by apply Z.eqb_eq | assumption].
Qed.

Lemma member_of_int {E} `{IntEnum E} (v : PyVal) (m : E) :
  member_of v = Some m -> isinstance_int v = true.
Proof.
  unfold member_of, isinstance_int. destruct (as_int v); [reflexivity | discriminate].
Qed.

Lemma enum_call_Some {E} `{IntEnum E} (v : PyVal) (m : E) :
  member_of v = Some m -> enum_call v = Ok m.
Proof. unfold enum_call. by intros ->. Qed.

Lemma enum_call_None {E} `{IntEnum E} (v : PyVal) :
  member_of (E:=E) v = None ->
  exists msg, enum_call (E:=E) v = Raise (ValueError [VStr msg]).
Proof. unfold enum_call. intros ->. eauto. Qed.

Lemma enum_call_member {E} `{IntEnum E} (v : PyVal) (m : E) :
  enum_call v = Ok m -> member_of v = Some m.
Proof.
  unfold enum_call. destruct (member_of v); [congruence | discriminate].
Qed.

Lemma enum_call_not_None {E} `{IntEnum E} (v : PyVal) (m : E) :
  enum_call v = Ok m -> is_None v = false.
Proof. destruct v; try reflexivity. discriminate. Qed.

Lemma member_of_members :
  (forall m, member_of (VHistory m) = Some m)
  /\ (forall m, member_of (VReliability m) = Some m)
  /\ (forall m, member_of (VDurability m) = Some m)
  /\ (forall m, member_of (VLiveliness m) = Some m).
Proof. repeat split; intros m; destruct m; reflexivity. Qed.

Lemma all_members_listed :
  (forall m : HistoryPolicy.t, In m enum_members)
  /\ (forall m : ReliabilityPolicy.t, In m enum_members)
  /\ (forall m : DurabilityPolicy.t, In m enum_members)
  /\ (forall m : LivelinessPolicy.t, In m enum_members).
Proof. repeat split; intros m; destruct m; simpl; tauto. Qed.

Lemma is_KEEP_LAST_true h : is_KEEP_LAST h = true <-> h = HistoryPolicy.KEEP_LAST.
Proof. destruct h; simpl; split; congruence. Qed.

(** ** Comparison of values *)

Lemma py_eq_sym a b : py_eq a b = py_eq b a.
Proof.
  unfold py_eq. destruct (as_int a) as [x|] eqn:Ha, (as_int b) as [y|] eqn:Hb.
  - apply Z.eqb_sym.
  - destruct a, b; try discriminate; reflexivity.
  - destruct a, b; try discriminate; reflexivity.
  - destruct a, b; try discriminate; try reflexivity.
    + apply String.eqb_sym.
    + apply Z.eqb_sym.
Qed.

Lemma py_eq_int_refl v : isinstance_int v = true -> py_eq v v = true.
Proof.
  unfold isinstance_int, py_eq. destruct (as_int v); [|discriminate].
  intros _. apply Z.eqb_refl.
Qed.

Lemma py_eq_refl_holds f v : field_holds f v = true -> py_eq v v = true.
Proof.
  destruct f, v; try discriminate; intros _; cbn;
    try apply Z.eqb_refl; try (by destruct b); try (by destruct m).
Qed.

Lemma py_eq_zero v : py_eq v (VInt 0) = true <-> as_int v = Some 0.
Proof.
  unfold py_eq. destruct (as_int v) as [z|] eqn:Hz.
  - cbn. rewrite Z.eqb_eq. split; congruence.
  - split; [|discriminate]. destruct v; discriminate.
Qed.

Lemma py_eq_KEEP_LAST h :
  py_eq (VHistory QoSHistoryPolicy.KEEP_LAST) (VHistory h) = is_KEEP_LAST h.
Proof. destruct h; reflexivity. Qed.

Lemma zero_depth_warning_cases h v :
  (zero_depth_warning (VHistory h) v = [UserWarning QoSProfile.zero_depth_message]
   /\ h = HistoryPolicy.KEEP_LAST /\ as_int v = Some 0)
  \/ (zero_depth_warning (VHistory h) v = []
      /\ ~ (h = HistoryPolicy.KEEP_LAST /\ as_int v = Some 0)).
Proof.
  unfold zero_depth_warning. rewrite py_eq_sym, py_eq_KEEP_LAST.
  destruct (is_KEEP_LAST h) eqn:Hk; cbn [andb].
  - apply is_KEEP_LAST_true in Hk as ->.
    destruct (py_eq v (VInt 0)) eqn:Hz.
    + left. apply py_eq_zero in Hz. auto.
    + right. split; [reflexivity|]. intros [_ Hv]. apply py_eq_zero in Hv. congruence.
  - right. split; [reflexivity|]. intros [-> _]. discriminate.
Qed.

(** ** Fields and their setters *)

Lemma field_slot_inj f g : field_slot f = field_slot g -> f = g.
Proof. destruct f, g; cbv; intros E; first [reflexivity | discriminate E]. Qed.

Lemma all_fields_complete f : In f all_fields.
Proof. destruct f; simpl; tauto. Qed.

Lemma slots_are_fields : QoSProfile.__slots__ = map field_slot all_fields.
Proof. reflexivity. Qed.

Lemma field_store_holds f v v' : field_store f v = Some v' -> field_holds f v' = true.
Proof.
  destruct f; simpl.
  1, 3, 4, 7: (destruct (member_of v); simpl; [|discriminate]; intros [= <-]; reflexivity).
  all: destruct v; simpl; try discriminate; intros [= <-]; reflexivity.
Qed.

(** What a setter stores compares equal to what it was given. *)
Lemma field_store_py_eq f d v : field_store f d = Some v -> py_eq v d = true.
Proof.
  assert (Henum : forall E (HE : IntEnum E) (inj : E -> PyVal) (m : E),
             (forall m, as_int (inj m) = Some (enum_value m)) ->
             member_of d = Some m -> py_eq (inj m) d = true).
  { intros E HE inj m Hinj Hm. unfold member_of in Hm. unfold py_eq. rewrite Hinj.
    destruct (as_int d) as [z|]; [|discriminate]. cbn in Hm.
    apply enum_lookup_value_spec in Hm as [-> _]. apply Z.eqb_refl. }
  destruct f; cbn [field_store].
  1, 3, 4, 7: (destruct (member_of d) as [m|] eqn:Hm; [|discriminate]; intros [= <-];
               eapply Henum; [reflexivity | exact Hm]).
  1: destruct (isinstance_int d) eqn:Hd; [|discriminate]; intros [= <-];
     by apply py_eq_int_refl.
  all: destruct d; try discriminate; intros [= <-]; cbn; try apply Z.eqb_refl;
       by destruct b.
Qed.

Ltac unfold_setter :=
  unfold setter, QoSProfile.history_setter, QoSProfile.reliability_setter,
    QoSProfile.durability_setter, QoSProfile.liveliness_setter,
    QoSProfile.lifespan_setter, QoSProfile.deadline_setter,
    QoSProfile.liveliness_lease_duration_setter,
    QoSProfile.avoid_ros_namespace_conventions_setter, QoSProfile.depth_setter;
  unfold mbind, M_bind, mret, M_ret, assert, lift, setattr, raise, read, warn.

(** A setter other than depth's stores the validated value and changes
    nothing else. *)
Lemma setter_stores f v v' self w :
  f <> F_depth -> field_store f v = Some v' ->
  setter f v (self, w) = (Ok tt, (<[field_slot f := v']> self, w)).
Proof.
  intros Hf Hs. destruct f; try congruence; simpl in Hs.
  1-3, 6: (destruct (member_of v) as [m|] eqn:Hm; [|discriminate];
           injection Hs as <-; unfold_setter;
           rewrite (member_of_int _ _ Hm), ?orb_true_r;
           try (destruct v; try discriminate);
           unfold mret, M_ret; rewrite (enum_call_Some _ _ Hm); reflexivity).
  all: destruct v; try discriminate; injection Hs as <-; reflexivity.
Qed.

(** A refused assignment raises and leaves the object as it was. *)
Lemma setter_refuses f v self w :
  field_store f v = None ->
  exists e, setter f v (self, w) = (Raise e, (self, w)) /\ refusal e.
Proof.
  intros Hs. destruct f; simpl in Hs.
  1, 3, 4, 7:
    (destruct (member_of v) as [m|] eqn:Hm; [discriminate|];
     destruct (enum_call_None _ Hm) as [msg Hc];
     unfold_setter;
     destruct v; cbn -[enum_call]; try (rewrite Hc);
     (eexists; split; [reflexivity | (left; reflexivity) || (right; eexists; reflexivity)])).
  all: destruct v; try discriminate; eexists; (split; [reflexivity | left; reflexivity]).
Qed.

Lemma depth_setter_stores v h self w :
  isinstance_int v = true -> self !! "_history" = Some h ->
  QoSProfile.depth_setter v (self, w)
  = (Ok tt, (<["_depth" := v]> self, (w ++ zero_depth_warning h v)%list)).
Proof.
  intros Hv Hh. unfold_setter. rewrite Hv.
  unfold QoSProfile.history, getattr. cbv [mret M_ret]. cbn [fst snd]. rewrite Hh.
  unfold zero_depth_warning.
  destruct (py_eq h _ && py_eq v _); cbn [fst snd]; [reflexivity|].
  rewrite app_nil_r. reflexivity.
Qed.

Lemma depth_setter_refuses v self w :
  isinstance_int v = false ->
  QoSProfile.depth_setter v (self, w) = (Raise (AssertionError []), (self, w)).
Proof. intros Hv. unfold_setter. rewrite Hv. reflexivity. Qed.

(** ** The invariant of profiles *)

Lemma profile_inv_insert self f v :
  profile_inv self -> field_holds f v = true -> profile_inv (<[field_slot f := v]> self).
Proof.
  intros Hinv Hv g. destruct (decide (g = f)) as [->|Hne].
  - exists v. by rewrite lookup_insert_eq.
  - rewrite lookup_insert_ne; [apply Hinv|].
    intros E. apply Hne. symmetry. by apply field_slot_inj.
Qed.

Lemma setter_Ok_inv f v self w self' w' :
  profile_inv self ->
  setter f v (self, w) = (Ok tt, (self', w')) ->
  exists v', field_store f v = Some v' /\ self' = <[field_slot f := v']> self
    /\ exists h, self !! "_history" = Some h
       /\ w' = (w ++ if decide (f = F_depth) then zero_depth_warning h v else [])%list.
Proof.
  intros Hinv H. destruct (Hinv F_history) as (h & Hh & _).
  change (field_slot F_history) with "_history" in Hh.
  destruct (field_store f v) as [v'|] eqn:Hs.
  - exists v'. split; [reflexivity|]. destruct (decide (f = F_depth)) as [->|Hne].
    + simpl in Hs. destruct (isinstance_int v) eqn:Hv; [|discriminate]. injection Hs as <-.
      simpl in H. rewrite (depth_setter_stores v h) in H by assumption.
      injection H as <- <-. eauto.
    + rewrite (setter_stores f v v') in H by assumption. injection H as <- <-.
      split; [reflexivity|]. exists h. by rewrite app_nil_r.
  - destruct (setter_refuses f v self w Hs) as (e & He & _). congruence.
Qed.

Lemma setter_Raise_inv f v self w e self' w' :
  profile_inv self ->
  setter f v (self, w) = (Raise e, (self', w')) ->
  field_store f v = None /\ refusal e /\ self' = self /\ w' = w.
Proof.
  intros Hinv H. destruct (Hinv F_history) as (h & Hh & _).
  change (field_slot F_history) with "_history" in Hh.
  destruct (field_store f v) as [v'|] eqn:Hs.
  - destruct (decide (f = F_depth)) as [->|Hne].
    + simpl in Hs. destruct (isinstance_int v) eqn:Hv; [|discriminate].
      simpl in H. rewrite (depth_setter_stores v h) in H by assumption. discriminate.
    + rewrite (setter_stores f v v') in H by assumption. discriminate.
  - destruct (setter_refuses f v self w Hs) as (e' & He & Hr). rewrite He in H.
    injection H as <- <- <-. auto.
Qed.

Lemma setter_preserves_inv f v self w self' w' :
  profile_inv self -> setter f v (self, w) = (Ok tt, (self', w')) -> profile_inv self'.
Proof.
  intros Hinv H. destruct (setter_Ok_inv _ _ _ _ _ _ Hinv H) as (v' & Hs & -> & _).
  apply profile_inv_insert; [assumption|]. eapply field_store_holds, Hs.
Qed.

(** ** Construction *)

Section Construction.
Variable dflt : gmap string PyVal.

Lemma assign_field_eq a f s :
  assign_field dflt a f s
  = match supplied dflt f a with
    | Some v => setter f v s
    | None => (Raise (KeyError [VStr (field_key f)]), s)
    end.
Proof.
  unfold assign_field, QoSProfile.default_if_None, supplied, dict_getitem, lift.
  rewrite bind_M_eq. destruct (is_None _); [destruct (dflt !! _)|]; reflexivity.
Qed.

(** The assignments of a list of fields, by induction on the list: all are
    stored, or the first refused one raises. *)
Lemma assign_fields_outcome a fs self w :
  F_depth ∉ fs ->
  match mapM (resolve dflt a) fs with
  | Some vs =>
      assign_fields dflt a fs (self, w) = (Ok tt, (store_all (zip fs vs) self, w))
  | None =>
      exists e self', assign_fields dflt a fs (self, w) = (Raise e, (self', w))
                      /\ foreign e
  end.
Proof.
  revert self. induction fs as [|f fs IH]; intros self Hfs; [reflexivity|].
  apply not_elem_of_cons in Hfs as [Hf Hfs].
  assert (Hstep : assign_fields dflt a (f :: fs) (self, w)
                  = (assign_field dflt a f ;; assign_fields dflt a fs) (self, w)).
  { destruct fs; [symmetry; apply bind_ret_tt | reflexivity]. }
  rewrite Hstep, bind_M_eq, assign_field_eq. clear Hstep.
  cbn [mapM].
  destruct (resolve dflt a f) as [v'|] eqn:Hr; cbn [mbind option_bind];
    unfold resolve in Hr; destruct (supplied dflt f a) as [v|]; cbn in Hr;
    try discriminate.
  - rewrite (setter_stores f v v') by auto.
    specialize (IH (<[field_slot f := v']> self) Hfs).
    destruct (mapM (resolve dflt a) fs) as [vs|]; exact IH.
  - destruct (setter_refuses f v self w Hr) as (e & -> & He).
    exists e, self. split; [reflexivity | by left].
  - eexists _, self. split; [reflexivity|]. right. eauto.
Qed.

Lemma init_unfold a :
  QoSProfile.__init__ dflt a =
  (history ←
     (if is_None (kw_history a) then
        if is_None (kw_depth a) then
          raise (InvalidQoSProfileException.__call__ msg_required)
        else mret (VHistory QoSHistoryPolicy.KEEP_LAST)
      else mret (kw_history a));
   setter F_history history;;
   init_rest dflt a).
Proof. reflexivity. Qed.

Lemma rest_outcome a w h :
  rest_spec dflt a w h (init_rest dflt a (<["_history" := VHistory h]> ∅, w)).
Proof.
  unfold rest_spec, init_rest. rewrite bind_M_eq.
  unfold read, QoSProfile.history, getattr. cbn [fst].
  rewrite lookup_insert_eq, py_eq_KEEP_LAST.
  destruct (is_KEEP_LAST h && is_None (kw_depth a)); [reflexivity|].
  rewrite bind_M_eq. cbv [mret M_ret]. rewrite bind_M_eq, assign_field_eq.
  unfold resolve at 1. destruct (supplied dflt F_depth a) as [v|]; cbn [mbind option_bind].
  - cbn [field_store]. destruct (isinstance_int v) eqn:Hv.
    + rewrite (depth_setter_stores v (VHistory h)) by (assumption || apply lookup_insert_eq).
      apply assign_fields_outcome. rewrite list_elem_of_In. simpl. intuition discriminate.
    + cbn [setter]. rewrite depth_setter_refuses by assumption.
      eexists. split; [reflexivity|]. left. by left.
  - eexists. split; [reflexivity|]. right. eauto.
Qed.

(** Every run of the constructor is one of the outcomes of [init_spec]. *)
Lemma init_outcome a w :
  init_spec dflt a w (QoSProfile.__init__ dflt a (∅, w)).
Proof.
  rewrite init_unfold. unfold init_spec, resolve_history. rewrite bind_M_eq.
  destruct (is_None (kw_history a)) eqn:Hh0.
  - destruct (is_None (kw_depth a)) eqn:Hd0.
    + eexists. split; reflexivity.
    + cbv [mret M_ret]. rewrite bind_M_eq.
      rewrite (setter_stores F_history _ (VHistory HistoryPolicy.KEEP_LAST))
        by (reflexivity || discriminate).
      apply rest_outcome.
  - cbv [mret M_ret]. rewrite bind_M_eq.
    destruct (member_of (kw_history a)) as [h|] eqn:Hm.
    + rewrite (setter_stores F_history _ (VHistory h)); [apply rest_outcome|discriminate|].
      cbn [field_store]. by rewrite Hm.
    + destruct (setter_refuses F_history (kw_history a) ∅ w) as (e & -> & He).
      { cbn [field_store]. by rewrite Hm. }
      eauto.
Qed.

Lemma mapM_defaulted a vs :
  mapM (resolve dflt a) defaulted_fields = Some vs ->
  exists r du ls dl lv le av,
    vs = [r; du; ls; dl; lv; le; av]
    /\ resolve dflt a F_reliability = Some r
    /\ resolve dflt a F_durability = Some du
    /\ resolve dflt a F_lifespan = Some ls
    /\ resolve dflt a F_deadline = Some dl
    /\ resolve dflt a F_liveliness = Some lv
    /\ resolve dflt a F_liveliness_lease_duration = Some le
    /\ resolve dflt a F_avoid_ros_namespace_conventions = Some av.
Proof.
  unfold defaulted_fields. cbn [mapM].
  destruct (resolve dflt a F_reliability) as [r|]; [|discriminate].
  destruct (resolve dflt a F_durability) as [du|]; [|discriminate].
  destruct (resolve dflt a F_lifespan) as [ls|]; [|discriminate].
  destruct (resolve dflt a F_deadline) as [dl|]; [|discriminate].
  destruct (resolve dflt a F_liveliness) as [lv|]; [|discriminate].
  destruct (resolve dflt a F_liveliness_lease_duration) as [le|]; [|discriminate].
  destruct (resolve dflt a F_avoid_ros_namespace_conventions) as [av|]; [|discriminate].
  intros [= <-]. repeat eexists.
Qed.

(** A successful construction, slot by slot. *)
Lemma call_Ok_explicit a w h d vs :
  resolve_history a = Some h ->
  is_KEEP_LAST h && is_None (kw_depth a) = false ->
  resolve dflt a F_depth = Some d ->
  mapM (resolve dflt a) defaulted_fields = Some vs ->
  QoSProfile.__call__ dflt a w
  = (Ok (store_all (zip defaulted_fields vs)
                   (<["_depth" := d]> (<["_history" := VHistory h]> ∅))),
     (w ++ zero_depth_warning (VHistory h) d)%list).
Proof.
  intros Hh Hk Hd Hvs. pose proof (init_outcome a w) as Hs.
  unfold init_spec, rest_spec in Hs. rewrite Hh, Hk, Hd, Hvs in Hs.
  unfold QoSProfile.__call__. by rewrite Hs.
Qed.

Lemma call_Ok_inv a w self w' :
  QoSProfile.__call__ dflt a w = (Ok self, w') ->
  (forall f, is_Some (resolved dflt a f) /\ self !! field_slot f = resolved dflt a f)
  /\ (forall h, resolve_history a = Some h ->
                is_KEEP_LAST h && is_None (kw_depth a) = false)
  /\ w' = (w ++ depth_warning dflt a)%list.
Proof.
  intros Hc. pose proof (init_outcome a w) as Hs.
  unfold QoSProfile.__call__ in Hc.
  destruct (QoSProfile.__init__ dflt a (∅, w)) as [[[]|e] [self1 w1]]; [|discriminate].
  injection Hc as -> ->.
  unfold init_spec in Hs. unfold depth_warning.
  destruct (resolve_history a) as [h|] eqn:Hh; [|destruct Hs as (e & [=] & _)].
  unfold rest_spec in Hs.
  destruct (is_KEEP_LAST h && is_None (kw_depth a)) eqn:Hk; [discriminate|].
  destruct (resolve dflt a F_depth) as [d|] eqn:Hd; [|destruct Hs as (e & [=] & _)].
  destruct (mapM (resolve dflt a) defaulted_fields) as [vs|] eqn:Hvs;
    [|destruct Hs as (e & ? & [=] & _)].
  injection Hs as -> ->.
  apply mapM_defaulted in Hvs
    as (r & du & ls & dl & lv & le & av & -> & Hr & Hdu & Hls & Hdl & Hlv & Hle & Hav).
  split; [|split; [intros ? [= <-]; exact Hk | reflexivity]].
  intros f. unfold resolved. rewrite Hh.
  destruct f; rewrite ?Hd, ?Hr, ?Hdu, ?Hls, ?Hdl, ?Hlv, ?Hle, ?Hav;
    (split; [eexists; reflexivity|]);
    cbv [store_all zip zip_with defaulted_fields foldl fst snd field_slot field_key
           String.append];
    repeat (rewrite lookup_insert_ne by discriminate); rewrite lookup_insert_eq;
    reflexivity.
Qed.

Lemma call_Ok_intro a w :
  (forall f, is_Some (resolved dflt a f)) ->
  (forall h, resolve_history a = Some h ->
             is_KEEP_LAST h && is_None (kw_depth a) = false) ->
  exists self, QoSProfile.__call__ dflt a w = (Ok self, (w ++ depth_warning dflt a)%list).
Proof.
  intros Hall Hk. unfold depth_warning.
  destruct (Hall F_history) as [vh Hvh]. cbn [resolved] in Hvh.
  destruct (resolve_history a) as [h|] eqn:Hh; [|discriminate].
  destruct (Hall F_depth) as [d Hd]. cbn [resolved] in Hd. rewrite Hd.
  destruct (mapM (resolve dflt a) defaulted_fields) as [vs|] eqn:Hvs.
  - eexists. apply call_Ok_explicit; eauto.
  - exfalso. apply mapM_None in Hvs. apply Exists_exists in Hvs as (f & Hf & Hnone).
    unfold defaulted_fields in Hf. apply list_elem_of_In in Hf. simpl in Hf.
    destruct (Hall f) as [v Hv].
    repeat destruct Hf as [<-|Hf]; try contradiction; cbn [resolved] in Hv; congruence.
Qed.

Lemma exc_class_refusal e : refusal e -> exc_class e <> "InvalidQoSProfileException".
Proof. intros [->|[msg ->]]; discriminate. Qed.

Lemma exc_class_foreign e : foreign e -> exc_class e <> "InvalidQoSProfileException".
Proof. intros [He|[k ->]]; [by apply exc_class_refusal | discriminate]. Qed.

(** A failed construction: one of the constructor's two exceptions, or an
    exception of an assignment. *)
Lemma call_Raise_inv a w e w' :
  QoSProfile.__call__ dflt a w = (Raise e, w') ->
  (e = InvalidQoSProfileException.__call__ msg_required
     /\ is_None (kw_history a) = true /\ is_None (kw_depth a) = true /\ w' = w)
  \/ (e = InvalidQoSProfileException.__call__ msg_keep_last
     /\ resolve_history a = Some HistoryPolicy.KEEP_LAST
     /\ is_None (kw_history a) = false /\ is_None (kw_depth a) = true /\ w' = w)
  \/ (foreign e
      /\ is_None (kw_history a) && is_None (kw_depth a) = false
      /\ (forall h, resolve_history a = Some h ->
                    is_KEEP_LAST h && is_None (kw_depth a) = false)
      /\ exists f, resolved dflt a f = None
           /\ ((f = F_history \/ f = F_depth) /\ w' = w
               \/ In f defaulted_fields
                  /\ is_Some (resolve_history a)
                  /\ is_Some (resolve dflt a F_depth)
                  /\ w' = (w ++ depth_warning dflt a)%list)).
Proof.
  intros Hc. pose proof (init_outcome a w) as Hs.
  unfold QoSProfile.__call__ in Hc.
  destruct (QoSProfile.__init__ dflt a (∅, w)) as [[[]|e1] [self1 w1]]; [discriminate|].
  injection Hc as -> ->.
  unfold init_spec in Hs. unfold depth_warning.
  assert (Hab : forall h, resolve_history a = Some h ->
                          is_None (kw_history a) && is_None (kw_depth a) = false).
  { unfold resolve_history. intros h.
    destruct (is_None (kw_history a)); [|reflexivity].
    destruct (is_None (kw_depth a)); [discriminate | reflexivity]. }
  destruct (resolve_history a) as [h|] eqn:Hh.
  - specialize (Hab h eq_refl). unfold rest_spec in Hs.
    destruct (is_KEEP_LAST h && is_None (kw_depth a)) eqn:Hk.
    + injection Hs as -> _ ->. right; left.
      apply andb_true_iff in Hk as [Hk Hd]. destruct h; try discriminate.
      rewrite Hd, andb_true_r in Hab. auto.
    + destruct (resolve dflt a F_depth) as [d|] eqn:Hd.
      * destruct (mapM (resolve dflt a) defaulted_fields) as [vs|] eqn:Hvs; [discriminate|].
        destruct Hs as (e' & self' & [= -> _ ->] & He). right; right.
        split; [assumption|]. split; [assumption|].
        split; [intros h' [= <-]; exact Hk|].
        apply mapM_None in Hvs. apply Exists_exists in Hvs as (f & Hf & Hnone).
        exists f. apply list_elem_of_In in Hf.
        assert (Hres : resolved dflt a f = None).
        { unfold defaulted_fields in Hf. simpl in Hf.
          repeat destruct Hf as [<-|Hf]; try contradiction; exact Hnone. }
        split; [exact Hres|]. right. eauto.
      * destruct Hs as (e' & [= -> _ ->] & He). right; right.
        split; [assumption|]. split; [assumption|].
        split; [intros h' [= <-]; exact Hk|].
        exists F_depth. split; [exact Hd|]. left. auto.
  - clear Hab. destruct Hs as (e' & [= -> _ ->] & He).
    unfold resolve_history in Hh. destruct (is_None (kw_history a)) eqn:Hh0.
    + left. destruct (is_None (kw_depth a)); [auto | discriminate].
    + right; right. split; [by left|]. split; [reflexivity|].
      split; [intros h' [=]|].
      exists F_history. cbn [resolved].
      unfold resolve_history. rewrite Hh0, Hh. auto.
Qed.

Lemma resolved_holds a f v : resolved dflt a f = Some v -> field_holds f v = true.
Proof.
  destruct f; cbn [resolved]; unfold resolve.
  1: destruct (resolve_history a); simpl; [intros [= <-]; reflexivity | discriminate].
  all: destruct (supplied dflt _ a) as [x|]; cbn [mbind option_bind]; [|discriminate];
       apply field_store_holds.
Qed.

Lemma constructed_inv a w self w' :
  QoSProfile.__call__ dflt a w = (Ok self, w') -> profile_inv self.
Proof.
  intros Hc f. apply call_Ok_inv in Hc as (Hall & _ & _).
  destruct (Hall f) as [[v Hv] Hl]. exists v. split; [congruence|].
  eapply resolved_holds, Hv.
Qed.

(** The invariant holds of every profile, by induction on how it was
    reached. *)
Lemma reachable_inv self : reachable dflt self -> profile_inv self.
Proof.
  induction 1 as [a w self w' Hc | self f v w self' w' _ IH Hs].
  - eapply constructed_inv, Hc.
  - eapply setter_preserves_inv; eassumption.
Qed.

(** *** Arguments in range *)

Lemma kwargs_in_range_resolve a f :
  kwargs_in_range dflt a = true -> f <> F_history -> is_Some (resolve dflt a f).
Proof.
  unfold kwargs_in_range. intros H Hf. apply andb_true_iff in H as [_ H].
  rewrite forallb_forall in H. specialize (H f).
  unfold resolve, field_valid in *.
  destruct (supplied dflt f a) as [v|]; cbn [mbind option_bind].
  - destruct (field_store f v); [eauto|].
    assert (false = true) by (apply H; destruct f; simpl; tauto). discriminate.
  - assert (false = true) by (apply H; destruct f; simpl; tauto). discriminate.
Qed.

Lemma kwargs_in_range_resolved a :
  kwargs_in_range dflt a = true ->
  is_None (kw_history a) && is_None (kw_depth a) = false ->
  forall f, is_Some (resolved dflt a f).
Proof.
  intros H Hab f. destruct (decide (f = F_history)) as [->|Hf].
  - cbn [resolved]. unfold resolve_history.
    unfold kwargs_in_range in H. apply andb_true_iff in H as [H _].
    destruct (is_None (kw_history a)).
    + destruct (is_None (kw_depth a)); [discriminate | eauto].
    + cbn [orb] in H. unfold field_valid in H. cbn [field_store] in H.
      destruct (member_of (kw_history a)); [eauto | discriminate].
  - pose proof (kwargs_in_range_resolve a f H Hf) as [v Hv].
    exists v. destruct f; try congruence; exact Hv.
Qed.

Lemma resolve_history_supplied a h :
  is_None (kw_history a) = false ->
  resolve_history a = Some h <-> enum_call (kw_history a) = Ok h.
Proof.
  intros Hh. unfold resolve_history. rewrite Hh. split.
  - apply enum_call_Some.
  - apply enum_call_member.
Qed.

Lemma resolve_history_KEEP_LAST a :
  is_None (kw_depth a) = false ->
  is_None (kw_history a) = true
    \/ enum_call (kw_history a) = Ok HistoryPolicy.KEEP_LAST ->
  resolve_history a = Some HistoryPolicy.KEEP_LAST.
Proof.
  intros Hd [Hh|Hh].
  - unfold resolve_history. by rewrite Hh, Hd.
  - apply resolve_history_supplied; [|assumption]. apply (enum_call_not_None _ _ Hh).
Qed.

Lemma resolve_history_cases a h :
  resolve_history a = Some h ->
  (is_None (kw_history a) = true /\ h = HistoryPolicy.KEEP_LAST)
  \/ enum_call (kw_history a) = Ok h.
Proof.
  intros Hh. destruct (is_None (kw_history a)) eqn:Hn.
  - left. unfold resolve_history in Hh. rewrite Hn in Hh.
    destruct (is_None (kw_depth a)); [discriminate|]. split; congruence.
  - right. by apply resolve_history_supplied.
Qed.

Lemma resolve_depth_supplied a z :
  as_int (kw_depth a) = Some z ->
  is_None (kw_depth a) = false /\ resolve dflt a F_depth = Some (kw_depth a).
Proof.
  intros Hz. assert (Hn : is_None (kw_depth a) = false) by (destruct (kw_depth a); done).
  split; [exact Hn|]. unfold resolve, supplied. cbn [field_arg]. rewrite Hn.
  cbn. unfold isinstance_int. by rewrite Hz.
Qed.

Lemma resolve_depth_not_None a d :
  is_None (kw_depth a) = false -> resolve dflt a F_depth = Some d -> d = kw_depth a.
Proof.
  intros Hn. unfold resolve, supplied. cbn [field_arg]. rewrite Hn. cbn.
  destruct (isinstance_int (kw_depth a)); congruence.
Qed.

(** When the constructor warns: the history resolves to KEEP_LAST and the
    depth argument is zero. *)
Lemma depth_warning_cases a :
  (forall h, resolve_history a = Some h ->
             is_KEEP_LAST h && is_None (kw_depth a) = false) ->
  (depth_warning dflt a = []
   /\ ~ (resolve_history a = Some HistoryPolicy.KEEP_LAST
         /\ as_int (kw_depth a) = Some 0))
  \/ (depth_warning dflt a = [UserWarning QoSProfile.zero_depth_message]
      /\ as_int (kw_depth a) = Some 0
      /\ (is_None (kw_history a) = true
          \/ enum_call (kw_history a) = Ok HistoryPolicy.KEEP_LAST)
      /\ resolve_history a = Some HistoryPolicy.KEEP_LAST
      /\ resolve dflt a F_depth = Some (kw_depth a)).
Proof.
  intros Hk. unfold depth_warning.
  destruct (resolve_history a) as [h|] eqn:Hh;
    [|left; split; [reflexivity | intros [[=] _]]].
  destruct (resolve dflt a F_depth) as [d|] eqn:Hd.
  - destruct (zero_depth_warning_cases h d) as [(-> & -> & Hz) | (-> & Hn)].
    + right. specialize (Hk _ eq_refl). cbn in Hk.
      rewrite (resolve_depth_not_None a d Hk Hd) in *.
      split; [reflexivity|]. split; [assumption|]. split; [|auto].
      destruct (resolve_history_cases a _ Hh) as [[Hn _]|He]; auto.
    + left. split; [reflexivity|]. intros [[= ->] Hz]. apply Hn. split; [reflexivity|].
      destruct (resolve_depth_supplied a 0 Hz) as [_ Hd'].
      rewrite Hd in Hd'. by injection Hd' as ->.
  - left. split; [reflexivity|]. intros [_ Hz].
    destruct (resolve_depth_supplied a 0 Hz) as [_ Hd']. congruence.
Qed.

(** *** What the constructor raises *)

(** C2: construction raises [InvalidQoSProfileException] if and only if
    history and depth are both omitted, or the history resolves to KEEP_LAST
    and the depth is omitted; every other combination of arguments with
    in-range values constructs a profile. *)
Theorem init_raises_InvalidQoSProfileException_iff a w :
  ((exists e w', QoSProfile.__call__ dflt a w = (Raise e, w')
                 /\ exc_class e = "InvalidQoSProfileException")
   <-> (is_None (kw_history a) = true /\ is_None (kw_depth a) = true)
       \/ (enum_call (kw_history a) = Ok HistoryPolicy.KEEP_LAST
           /\ is_None (kw_depth a) = true))
  /\ (kwargs_in_range dflt a = true ->
      ~ (is_None (kw_history a) = true /\ is_None (kw_depth a) = true) ->
      ~ (enum_call (kw_history a) = Ok HistoryPolicy.KEEP_LAST
         /\ is_None (kw_depth a) = true) ->
      exists self w', QoSProfile.__call__ dflt a w = (Ok self, w')).
Proof.
  split; [split|].
  - intros (e & w' & Hc & Hcls).
    apply call_Raise_inv in Hc as [(-> & Hh & Hd & _) | [(-> & Hr & Hh & Hd & _) | (He & _)]].
    + left. auto.
    + right. split; [|assumption]. by apply resolve_history_supplied.
    + exfalso. by apply (exc_class_foreign e).
  - intros Hab.
    destruct (QoSProfile.__call__ dflt a w) as [[self|e] w'] eqn:Hc.
    + exfalso. apply call_Ok_inv in Hc as (Hall & Hk & _).
      destruct (Hall F_history) as [[v Hv] _]. cbn [resolved] in Hv.
      destruct Hab as [[Hh Hd] | [Hh Hd]].
      * unfold resolve_history in Hv. rewrite Hh, Hd in Hv. discriminate.
      * pose proof (enum_call_not_None _ _ Hh) as Hn.
        apply (resolve_history_supplied a _ Hn) in Hh.
        specialize (Hk _ Hh). rewrite Hd in Hk. discriminate.
    + exists e, w'. split; [reflexivity|].
      apply call_Raise_inv in Hc as [(-> & _) | [(-> & _) | (He & Hn & Hk & _)]];
        [reflexivity | reflexivity |].
      exfalso. destruct Hab as [[Hh Hd] | [Hh Hd]].
      * rewrite Hh, Hd in Hn. discriminate.
      * pose proof (enum_call_not_None _ _ Hh) as Hn'.
        apply (resolve_history_supplied a _ Hn') in Hh.
        specialize (Hk _ Hh). rewrite Hd in Hk. discriminate.
  - intros Hr Ha Hb.
    destruct (call_Ok_intro a w) as [self Hc]; [| |eauto].
    + apply kwargs_in_range_resolved; [assumption|].
      destruct (is_None (kw_history a)), (is_None (kw_depth a)); try reflexivity.
      exfalso. auto.
    + intros h Hh. destruct (is_None (kw_depth a)) eqn:Hd; [|apply andb_false_r].
      rewrite andb_true_r. destruct (is_KEEP_LAST h) eqn:Hk; [|reflexivity].
      apply is_KEEP_LAST_true in Hk as ->. exfalso.
      destruct (is_None (kw_history a)) eqn:Hn.
      * apply Ha. auto.
      * apply Hb. split; [|reflexivity]. by apply resolve_history_supplied.
Qed.

(** The exception of each raise site of the constructor, as it is raised:
    the class's [__init__] leaves the object as [__new__] made it, with the
    diagnostic as its only argument. *)
Lemma InvalidQoSProfileException_as_raised message :
  exc_class (InvalidQoSProfileException.__call__ message) = "InvalidQoSProfileException"
  /\ exc_args (InvalidQoSProfileException.__call__ message) = [VStr message]
  /\ BaseException__str__ (InvalidQoSProfileException.__call__ message) = message.
Proof. repeat split. Qed.

(** C10, amended: an [InvalidQoSProfileException] raised by construction
    carries the diagnostic passed at its raise site: the text is among the
    exception's [args] and in its string form. *)
Theorem InvalidQoSProfileException_args a w e w' :
  QoSProfile.__call__ dflt a w = (Raise e, w') ->
  exc_class e = "InvalidQoSProfileException" ->
  exists message,
    (message = msg_required \/ message = msg_keep_last)
    /\ In (VStr message) (exc_args e)
    /\ str_contains message (BaseException__str__ e) = true.
Proof.
  intros Hc Hcls.
  apply call_Raise_inv in Hc as [(-> & _) | [(-> & _) | (He & _)]].
  - exists msg_required. split; [by left|]. split; [by left | reflexivity].
  - exists msg_keep_last. split; [by right|]. split; [by left | reflexivity].
  - exfalso. by apply (exc_class_foreign e).
Qed.

(** *** What the constructor stores *)

(** C9: when history is omitted and depth is supplied, the profile's
    history is KEEP_LAST, whatever the default dictionary holds; the
    construction raises none of the constructor's own exceptions and, with
    in-range arguments, succeeds. *)
Theorem omitted_history_is_KEEP_LAST a w :
  is_None (kw_history a) = true -> is_None (kw_depth a) = false ->
  (forall self w', QoSProfile.__call__ dflt a w = (Ok self, w') ->
                   self !! "_history" = Some (VHistory HistoryPolicy.KEEP_LAST))
  /\ (forall e w', QoSProfile.__call__ dflt a w = (Raise e, w') ->
                   exc_class e <> "InvalidQoSProfileException")
  /\ (kwargs_in_range dflt a = true ->
      exists self w', QoSProfile.__call__ dflt a w = (Ok self, w')
                      /\ self !! "_history" = Some (VHistory HistoryPolicy.KEEP_LAST)).
Proof.
  intros Hh Hd.
  assert (Hok : forall self w', QoSProfile.__call__ dflt a w = (Ok self, w') ->
                   self !! "_history" = Some (VHistory HistoryPolicy.KEEP_LAST)).
  { intros self w' Hc. apply call_Ok_inv in Hc as (Hall & _ & _).
    destruct (Hall F_history) as [_ Hl]. change (field_slot F_history) with "_history" in Hl.
    rewrite Hl. cbn [resolved]. unfold resolve_history. rewrite Hh, Hd. reflexivity. }
  split; [exact Hok|]. split.
  - intros e w' Hc.
    apply call_Raise_inv in Hc as [(_ & _ & Hd' & _) | [(_ & _ & Hh' & _) | (He & _)]].
    + congruence.
    + congruence.
    + by apply exc_class_foreign.
  - intros Hr. destruct (call_Ok_intro a w) as [self Hc].
    + apply kwargs_in_range_resolved; [assumption|]. rewrite Hd. apply andb_false_r.
    + intros h _. rewrite Hd. apply andb_false_r.
    + exists self, (w ++ depth_warning dflt a)%list. split; [exact Hc|]. eapply Hok, Hc.
Qed.

(** C3: a field among reliability, durability, lifespan, deadline,
    liveliness, liveliness_lease_duration and
    avoid_ros_namespace_conventions that is omitted holds what its setter
    makes of the default dictionary's entry, a value equal to that entry. *)
Theorem omitted_field_takes_default a w self w' f :
  In f defaulted_fields ->
  is_None (field_arg f a) = true ->
  QoSProfile.__call__ dflt a w = (Ok self, w') ->
  exists d v, dflt !! field_key f = Some d
              /\ self !! field_slot f = Some v
              /\ field_store f d = Some v
              /\ py_eq v d = true.
Proof.
  intros Hf Hnone Hc. apply call_Ok_inv in Hc as (Hall & _ & _).
  destruct (Hall f) as [[v Hv] Hl].
  assert (Hr : resolve dflt a f = Some v).
  { destruct f; try exact Hv. simpl in Hf. intuition discriminate. }
  unfold resolve, supplied in Hr. rewrite Hnone in Hr.
  destruct (dflt !! field_key f) as [d|]; [|discriminate]. cbn in Hr.
  exists d, v. split; [reflexivity|]. split; [congruence|]. split; [assumption|].
  eapply field_store_py_eq, Hr.
Qed.

(** *** Invariants of the fields *)

(** C5: in every profile, constructed or assigned to, each of history,
    reliability, durability and liveliness holds a member of its
    enumeration. *)
Theorem policy_fields_hold_members self :
  reachable dflt self ->
  (exists m : HistoryPolicy.t,
      self !! "_history" = Some (VHistory m) /\ In m enum_members)
  /\ (exists m : ReliabilityPolicy.t,
         self !! "_reliability" = Some (VReliability m) /\ In m enum_members)
  /\ (exists m : DurabilityPolicy.t,
         self !! "_durability" = Some (VDurability m) /\ In m enum_members)
  /\ (exists m : LivelinessPolicy.t,
         self !! "_liveliness" = Some (VLiveliness m) /\ In m enum_members).
Proof.
  intros Hr. apply reachable_inv in Hr.
  destruct all_members_listed as (Hh & Hre & Hdu & Hlv).
  repeat split.
  - destruct (Hr F_history) as (v & Hv & Hholds).
    destruct v; try discriminate. eauto.
  - destruct (Hr F_reliability) as (v & Hv & Hholds).
    destruct v; try discriminate. eauto.
  - destruct (Hr F_durability) as (v & Hv & Hholds).
    destruct v; try discriminate. eauto.
  - destruct (Hr F_liveliness) as (v & Hv & Hholds).
    destruct v; try discriminate. eauto.
Qed.

(** C6, amended: the depth of every profile is an instance of [int];
    assigning a value that is not one fails the setter's assertion and
    stores nothing, and the constructor refuses it too; any instance of
    [int], of either sign, is stored. *)
Theorem depth_holds_an_int self :
  reachable dflt self ->
  (exists v z, self !! "_depth" = Some v /\ as_int v = Some z)
  /\ (forall v w, isinstance_int v = false ->
        setter F_depth v (self, w) = (Raise (AssertionError []), (self, w)))
  /\ (forall v w, isinstance_int v = true ->
        exists w', setter F_depth v (self, w) = (Ok tt, (<["_depth" := v]> self, w')))
  /\ (forall a w self' w',
        is_None (kw_depth a) = false -> isinstance_int (kw_depth a) = false ->
        QoSProfile.__call__ dflt a w <> (Ok self', w')).
Proof.
  intros Hr. apply reachable_inv in Hr. repeat split.
  - destruct (Hr F_depth) as (v & Hv & Hholds). cbn in Hholds.
    unfold isinstance_int in Hholds. destruct (as_int v) as [z|] eqn:Hz; [|discriminate].
    eauto.
  - intros v w Hv. by apply depth_setter_refuses.
  - intros v w Hv. destruct (Hr F_history) as (h & Hh & _).
    eexists. by apply (depth_setter_stores v h).
  - intros a w self' w' Hn Hv Hc. apply call_Ok_inv in Hc as (Hall & _ & _).
    destruct (Hall F_depth) as [[d Hd] _].
    cbn [resolved] in Hd. unfold resolve, supplied in Hd. cbn [field_arg] in Hd.
    rewrite Hn in Hd. cbn in Hd. rewrite Hv in Hd. discriminate.
Qed.

(** *** The zero-depth warning *)

(** C7: assigning a depth equal to 0 to a profile whose history is
    KEEP_LAST succeeds, stores the depth and issues the zero-depth warning;
    so does the depth assignment of a construction, which then raises none
    of the constructor's own exceptions and, with in-range arguments, returns
    the profile.  No other assignment or construction issues a warning. *)
Theorem zero_depth_with_KEEP_LAST_warns :
  (forall self w v,
      reachable dflt self ->
      self !! "_history" = Some (VHistory HistoryPolicy.KEEP_LAST) ->
      as_int v = Some 0 ->
      setter F_depth v (self, w)
      = (Ok tt, (<["_depth" := v]> self,
                 (w ++ [UserWarning QoSProfile.zero_depth_message])%list)))
  /\ (forall a w,
        is_None (kw_history a) = true
          \/ enum_call (kw_history a) = Ok HistoryPolicy.KEEP_LAST ->
        as_int (kw_depth a) = Some 0 ->
        exists r,
          QoSProfile.__call__ dflt a w
          = (r, (w ++ [UserWarning QoSProfile.zero_depth_message])%list)
          /\ exc_class_of r <> Some "InvalidQoSProfileException"
          /\ (kwargs_in_range dflt a = true ->
              exists self,
                r = Ok self
                /\ self !! "_history" = Some (VHistory HistoryPolicy.KEEP_LAST)
                /\ self !! "_depth" = Some (kw_depth a)))
  /\ (forall self f v w r self' w',
        reachable dflt self ->
        setter f v (self, w) = (r, (self', w')) ->
        w' = w
        \/ (w' = (w ++ [UserWarning QoSProfile.zero_depth_message])%list
            /\ r = Ok tt /\ f = F_depth /\ as_int v = Some 0
            /\ self !! "_history" = Some (VHistory HistoryPolicy.KEEP_LAST)))
  /\ (forall a w r w',
        QoSProfile.__call__ dflt a w = (r, w') ->
        w' = w
        \/ (w' = (w ++ [UserWarning QoSProfile.zero_depth_message])%list
            /\ as_int (kw_depth a) = Some 0
            /\ (is_None (kw_history a) = true
                \/ enum_call (kw_history a) = Ok HistoryPolicy.KEEP_LAST)
            /\ exc_class_of r <> Some "InvalidQoSProfileException")).
Proof.
  split; [|split; [|split]].
  - intros self w v Hr Hh Hv. apply reachable_inv in Hr.
    assert (Hi : isinstance_int v = true) by (unfold isinstance_int; by rewrite Hv).
    cbn [setter]. rewrite (depth_setter_stores v _ self w Hi Hh).
    destruct (zero_depth_warning_cases HistoryPolicy.KEEP_LAST v) as [(-> & _) | (_ & Hn)];
      [reflexivity | exfalso; auto].
  - intros a w Hh Hv.
    destruct (resolve_depth_supplied a 0 Hv) as [Hdn Hrd].
    pose proof (resolve_history_KEEP_LAST a Hdn Hh) as Hrh.
    assert (Hk : forall h, resolve_history a = Some h ->
                           is_KEEP_LAST h && is_None (kw_depth a) = false).
    { intros h _. rewrite Hdn. apply andb_false_r. }
    destruct (depth_warning_cases a Hk) as [(_ & Hn) | (Hw & _)];
      [exfalso; apply Hn; auto|].
    destruct (QoSProfile.__call__ dflt a w) as [[self|e] w'] eqn:Hc.
    + exists (Ok self). pose proof Hc as Hc'.
      apply call_Ok_inv in Hc' as (Hall & _ & ->). rewrite Hw.
      split; [reflexivity|]. split; [discriminate|]. intros _. exists self.
      destruct (Hall F_history) as [_ Hl1]. destruct (Hall F_depth) as [_ Hl2].
      cbn [resolved] in Hl1, Hl2. rewrite Hrh in Hl1. rewrite Hrd in Hl2. auto.
    + exists (Raise e). pose proof Hc as Hc'.
      apply call_Raise_inv in Hc'
        as [(_ & _ & Hd & _)
           | [(_ & _ & _ & Hd & _) | (He & _ & _ & f & Hf & [[Hfd ->]|(_ & _ & _ & ->)])]].
      * rewrite Hd in Hdn. discriminate.
      * rewrite Hd in Hdn. discriminate.
      * exfalso. destruct Hfd as [-> | ->]; cbn [resolved] in Hf.
        -- rewrite Hrh in Hf. discriminate.
        -- rewrite Hrd in Hf. discriminate.
      * rewrite Hw. split; [reflexivity|].
        split; [cbn; intros [= E]; by apply (exc_class_foreign e)|].
        intros Hr. exfalso.
        destruct (call_Ok_intro a w) as [self Hok]; [|exact Hk|congruence].
        apply kwargs_in_range_resolved; [assumption|]. rewrite Hdn. apply andb_false_r.
  - intros self f v w r self' w' Hr Hs. apply reachable_inv in Hr.
    destruct r as [[]|e].
    + apply (setter_Ok_inv _ _ _ _ _ _ Hr) in Hs as (v' & Hst & -> & h & Hh & ->).
      destruct (decide (f = F_depth)) as [->|Hne]; [|left; apply app_nil_r].
      destruct (Hr F_history) as (h' & Hh' & Hholds).
      change (field_slot F_history) with "_history" in Hh'. rewrite Hh in Hh'.
      injection Hh' as <-. destruct h as [| | | |m| | | | |]; try discriminate.
      destruct (zero_depth_warning_cases m v) as [(-> & -> & Hv) | (-> & _)];
        [right; auto | left; apply app_nil_r].
    + apply (setter_Raise_inv _ _ _ _ _ _ _ Hr) in Hs as (_ & _ & _ & ->). by left.
  - intros a w r w' Hc.
    assert (Hcases : w' = w
              \/ (forall h, resolve_history a = Some h ->
                            is_KEEP_LAST h && is_None (kw_depth a) = false)
                 /\ w' = (w ++ depth_warning dflt a)%list
                 /\ exc_class_of r <> Some "InvalidQoSProfileException").
    { destruct r as [self|e].
      - apply call_Ok_inv in Hc as (_ & Hk & ->). right.
        split; [exact Hk|]. split; [reflexivity | discriminate].
      - apply call_Raise_inv in Hc
          as [(_ & _ & _ & ->)
             | [(_ & _ & _ & _ & ->)
               | (He & _ & Hk & f & _ & [[_ ->]|(_ & _ & _ & ->)])]];
          try (by left).
        right. split; [exact Hk|]. split; [reflexivity|]. cbn. intros [= E].
        by apply (exc_class_foreign e). }
    destruct Hcases as [->|(Hk & -> & Hcls)]; [by left|].
    destruct (depth_warning_cases a Hk) as [(-> & _) | (-> & Hv & Hh & _)].
    + left. apply app_nil_r.
    + right. auto.
Qed.

(** *** Equality *)

Lemma py_all_forallb {A B} (f : B -> result bool) (k : A -> B) (g : A -> bool) l :
  (forall x, In x l -> f (k x) = Ok (g x)) ->
  py_all f (map k l) = Ok (forallb g l).
Proof.
  induction l as [|x l IH]; intros Hf; [reflexivity|].
  cbn [py_all forallb map]. rewrite (Hf x) by (left; reflexivity). cbn.
  destruct (g x); [|reflexivity]. apply IH. intros y Hy. apply Hf. by right.
Qed.

Lemma slot_eq_sym p q f : slot_eq q p f = slot_eq p q f.
Proof.
  unfold slot_eq. destruct (p !! field_slot f), (q !! field_slot f); try reflexivity.
  apply py_eq_sym.
Qed.

Lemma eq_forallb p q :
  profile_inv p -> profile_inv q ->
  QoSProfile.__eq__ p (Profile q) = Ok (forallb (slot_eq p q) all_fields).
Proof.
  intros Hp Hq. unfold QoSProfile.__eq__. rewrite slots_are_fields.
  apply py_all_forallb. intros f _. unfold slot_eq, getattr.
  destruct (Hp f) as (x & -> & _). destruct (Hq f) as (y & -> & _). reflexivity.
Qed.

(** C4: two profiles are equal if and only if each of the nine fields of
    one compares equal to the same field of the other; the equality is
    reflexive and symmetric. *)
Theorem eq_is_fieldwise p q :
  reachable dflt p -> reachable dflt q ->
  (exists b, QoSProfile.__eq__ p (Profile q) = Ok b
             /\ (b = true <->
                 forall f : Field,
                   exists x y, p !! field_slot f = Some x
                               /\ q !! field_slot f = Some y
                               /\ py_eq x y = true))
  /\ QoSProfile.__eq__ p (Profile p) = Ok true
  /\ QoSProfile.__eq__ q (Profile p) = QoSProfile.__eq__ p (Profile q).
Proof.
  intros Hp Hq. apply reachable_inv in Hp, Hq. repeat split.
  - exists (forallb (slot_eq p q) all_fields). split; [by apply eq_forallb|].
    rewrite forallb_forall. split.
    + intros H f. specialize (H f (all_fields_complete f)). unfold slot_eq in H.
      destruct (Hp f) as (x & Hx & _). destruct (Hq f) as (y & Hy & _).
      rewrite Hx, Hy in H. eauto.
    + intros H f _. destruct (H f) as (x & y & Hx & Hy & Hxy).
      unfold slot_eq. by rewrite Hx, Hy.
  - rewrite eq_forallb by assumption. f_equal. apply forallb_forall. intros f _.
    unfold slot_eq. destruct (Hp f) as (x & -> & Hx). eapply py_eq_refl_holds, Hx.
  - rewrite !eq_forallb by assumption. f_equal.
    induction all_fields as [|f l IH]; [reflexivity|].
    cbn [forallb]. by rewrite IH, (slot_eq_sym p q).
Qed.

End Construction.

(** ** Sample profiles *)

Lemma sample_profile_constructed d rv r w :
  resolve sample_default_dict (depth_reliability d rv) F_reliability
  = Some (VReliability r) ->
  QoSProfile.__call__ sample_default_dict (depth_reliability d rv) w
  = (Ok (sample_profile d r),
     (w ++ zero_depth_warning (VHistory HistoryPolicy.KEEP_LAST) (VInt d))%list).
Proof.
  intros Hr.
  apply (call_Ok_explicit sample_default_dict (depth_reliability d rv) w
           HistoryPolicy.KEEP_LAST (VInt d)
           [VReliability r; VDurability DurabilityPolicy.VOLATILE; VDuration 0;
            VDuration 0; VLiveliness LivelinessPolicy.SYSTEM_DEFAULT; VDuration 0;
            VBool false]); try reflexivity.
  unfold defaulted_fields. cbn [mapM]. rewrite Hr. reflexivity.
Qed.

Lemma sample_profile_reachable d r :
  reachable sample_default_dict (sample_profile d r).
Proof.
  eapply (reachable_new _ (depth_reliability d (VReliability r)) []).
  apply sample_profile_constructed. by destruct r.
Qed.

Lemma sample_profile_lookup d r f :
  sample_profile d r !! field_slot f
  = resolved sample_default_dict (depth_reliability d (VReliability r)) f.
Proof.
  pose proof (sample_profile_constructed d (VReliability r) r []) as Hc.
  apply call_Ok_inv in Hc as (Hall & _); [|by destruct r]. apply Hall.
Qed.

(** [QoSProfile(depth=5, reliability=1)] and then [profile.history = 2]: the
    integers are stored as members. *)
Lemma keep_all_profile_reachable : reachable sample_default_dict keep_all_profile.
Proof.
  apply (reachable_set _ (sample_profile 5 ReliabilityPolicy.RELIABLE)
           F_history (VInt 2) [] _ []).
  - eapply (reachable_new _ (depth_reliability 5 (VInt 1)) []).
    by apply sample_profile_constructed.
  - by apply (setter_stores F_history (VInt 2) (VHistory HistoryPolicy.KEEP_ALL)).
Qed.

(** ** Instances on the sample profiles *)

Lemma init_raises_witness :
  exists self w',
    QoSProfile.__call__ sample_default_dict (depth_only 5) [] = (Ok self, w').
Proof.
  apply (proj2 (init_raises_InvalidQoSProfileException_iff
                  sample_default_dict (depth_only 5) [])).
  - vm_compute. reflexivity.
  - intros [_ H]. vm_compute in H. discriminate.
  - intros [_ H]. vm_compute in H. discriminate.
Defined.

(** C10 does not hold as stated: [QoSProfile()] raises an exception whose
    [args] is not empty and whose string form is the diagnostic of the raise
    site. *)
Lemma raised_exception_carries_message :
  QoSProfile.__call__ sample_default_dict no_kwargs []
  = (Raise (InvalidQoSProfileException.__call__ msg_required), [])
  /\ exc_class (InvalidQoSProfileException.__call__ msg_required)
     = "InvalidQoSProfileException"
  /\ exc_args (InvalidQoSProfileException.__call__ msg_required) <> []
  /\ str_contains msg_required
       (BaseException__str__ (InvalidQoSProfileException.__call__ msg_required))
     = true.
Proof.
  split; [reflexivity|]. split; [reflexivity|]. split; [discriminate | reflexivity].
Qed.

Lemma InvalidQoSProfileException_args_witness :
  exists message,
    (message = msg_required \/ message = msg_keep_last)
    /\ In (VStr message) (exc_args (InvalidQoSProfileException.__call__ msg_required))
    /\ str_contains message
         (BaseException__str__ (InvalidQoSProfileException.__call__ msg_required))
       = true.
Proof.
  apply (InvalidQoSProfileException_args sample_default_dict no_kwargs [] _ []).
  - reflexivity.
  - reflexivity.
Defined.

Lemma omitted_history_witness :
  exists self w',
    QoSProfile.__call__ sample_default_dict (depth_only 5) [] = (Ok self, w')
    /\ self !! "_history" = Some (VHistory HistoryPolicy.KEEP_LAST).
Proof.
  apply (proj2 (proj2 (omitted_history_is_KEEP_LAST sample_default_dict (depth_only 5) []
                         eq_refl eq_refl))).
  vm_compute. reflexivity.
Defined.

Lemma omitted_field_witness :
  exists d v,
    sample_default_dict !! "durability" = Some d
    /\ sample_profile 5 ReliabilityPolicy.BEST_EFFORT !! "_durability" = Some v
    /\ field_store F_durability d = Some v
    /\ py_eq v d = true.
Proof.
  apply (omitted_field_takes_default sample_default_dict
           (depth_reliability 5 (VReliability ReliabilityPolicy.BEST_EFFORT))
           [] _ [] F_durability).
  - simpl. tauto.
  - reflexivity.
  - by apply sample_profile_constructed.
Defined.

Lemma policy_fields_witness :
  (exists m : HistoryPolicy.t,
      keep_all_profile !! "_history" = Some (VHistory m) /\ In m enum_members)
  /\ (exists m : ReliabilityPolicy.t,
         keep_all_profile !! "_reliability" = Some (VReliability m) /\ In m enum_members)
  /\ (exists m : DurabilityPolicy.t,
         keep_all_profile !! "_durability" = Some (VDurability m) /\ In m enum_members)
  /\ (exists m : LivelinessPolicy.t,
         keep_all_profile !! "_liveliness" = Some (VLiveliness m) /\ In m enum_members).
Proof.
  apply (policy_fields_hold_members sample_default_dict keep_all_profile).
  apply keep_all_profile_reachable.
Defined.

(** C6 does not hold as stated: [QoSProfile(depth=-1)] constructs a profile
    whose depth is -1, and [profile.depth = -5] is accepted and stored. *)
Lemma negative_depth_is_stored :
  reachable sample_default_dict (sample_profile (-1) ReliabilityPolicy.RELIABLE)
  /\ sample_profile (-1) ReliabilityPolicy.RELIABLE !! "_depth" = Some (VInt (-1))
  /\ setter F_depth (VInt (-5)) (sample_profile 5 ReliabilityPolicy.RELIABLE, [])
     = (Ok tt, (<["_depth" := VInt (-5)]> (sample_profile 5 ReliabilityPolicy.RELIABLE), []))
  /\ <["_depth" := VInt (-5)]> (sample_profile 5 ReliabilityPolicy.RELIABLE) !! "_depth"
     = Some (VInt (-5)).
Proof.
  split; [apply sample_profile_reachable|].
  split; [apply (sample_profile_lookup (-1) ReliabilityPolicy.RELIABLE F_depth)|].
  split; [|apply lookup_insert_eq].
  apply (depth_setter_stores (VInt (-5)) (VHistory HistoryPolicy.KEEP_LAST)
           (sample_profile 5 ReliabilityPolicy.RELIABLE) []); [reflexivity|].
  apply (sample_profile_lookup 5 ReliabilityPolicy.RELIABLE F_history).
Qed.

Lemma depth_holds_an_int_witness :
  exists v z, keep_all_profile !! "_depth" = Some v /\ as_int v = Some z.
Proof.
  apply (depth_holds_an_int sample_default_dict keep_all_profile).
  apply keep_all_profile_reachable.
Defined.

Lemma zero_depth_witness :
  exists self,
    QoSProfile.__call__ sample_default_dict (depth_only 0) []
    = (Ok self, [UserWarning QoSProfile.zero_depth_message])
    /\ self !! "_history" = Some (VHistory HistoryPolicy.KEEP_LAST)
    /\ self !! "_depth" = Some (VInt 0).
Proof.
  destruct (proj1 (proj2 (zero_depth_with_KEEP_LAST_warns sample_default_dict))
              (depth_only 0) [] (or_introl eq_refl) eq_refl)
    as (r & Hc & _ & Hok).
  destruct Hok as (self & -> & Hh & Hd); [vm_compute; reflexivity|].
  exists self. split; [exact Hc|]. split; [exact Hh | exact Hd].
Defined.

Lemma eq_is_fieldwise_witness :
  QoSProfile.__eq__ keep_all_profile
                    (Profile (sample_profile 5 ReliabilityPolicy.BEST_EFFORT))
  = QoSProfile.__eq__ (sample_profile 5 ReliabilityPolicy.BEST_EFFORT)
                      (Profile keep_all_profile).
Proof.
  apply (eq_is_fieldwise sample_default_dict
           (sample_profile 5 ReliabilityPolicy.BEST_EFFORT) keep_all_profile).
  - apply sample_profile_reachable.
  - apply keep_all_profile_reachable.
Defined.

(** ** Short keys *)

Lemma upper_lower_ascii c : upper_ascii (lower_ascii c) = upper_ascii c.
Proof. destruct c as [[] [] [] [] [] [] [] []]; reflexivity. Qed.

Lemma lower_ascii_idem c : lower_ascii (lower_ascii c) = lower_ascii c.
Proof. destruct c as [[] [] [] [] [] [] [] []]; reflexivity. Qed.

Lemma str_upper_lower s : str_upper (str_lower s) = str_upper s.
Proof.
  induction s as [|c s IH]; [reflexivity|].
  cbn [str_lower str_upper]. by rewrite upper_lower_ascii, IH.
Qed.

Lemma str_lower_idem s : str_lower (str_lower s) = str_lower s.
Proof.
  induction s as [|c s IH]; [reflexivity|].
  cbn [str_lower]. by rewrite lower_ascii_idem, IH.
Qed.

(** Names that differ only in case have the same upper-case form. *)
Lemma str_upper_of_lower_eq s t : str_lower s = str_lower t -> str_upper s = str_upper t.
Proof. intros H. by rewrite <- (str_upper_lower s), H, str_upper_lower. Qed.

Lemma short_key_roundtrip_intro {E} `{IntEnum E} (m : E) :
  In m enum_members ->
  In (str_lower (enum_name m)) (QoSPolicyEnum.short_keys E) ->
  enum_lookup_name (str_upper (enum_name m)) = Some m ->
  short_key_roundtrip m.
Proof.
  intros Hin Hkeys Hlook. unfold short_key_roundtrip.
  assert (Hget : forall s, str_lower s = str_lower (enum_name m) ->
                           QoSPolicyEnum.get_from_short_key E s = Ok (enum_value m)).
  { intros s Hs. unfold QoSPolicyEnum.get_from_short_key, enum_getitem.
    by rewrite (str_upper_of_lower_eq _ _ Hs), Hlook. }
  split; [assumption|]. split; [assumption|].
  split; [apply Hget, str_lower_idem | exact Hget].
Qed.

(** C8: for each member of a policy enumeration whose name does not start
    with [RMW], the lower-cased name is among [short_keys()], and
    [get_from_short_key] on it, in any mix of cases, returns the member's
    value. *)
Theorem short_keys_round_trip :
  (forall m : HistoryPolicy.t,
      str_startswith (enum_name m) "RMW" = false -> short_key_roundtrip m)
  /\ (forall m : ReliabilityPolicy.t,
         str_startswith (enum_name m) "RMW" = false -> short_key_roundtrip m)
  /\ (forall m : DurabilityPolicy.t,
         str_startswith (enum_name m) "RMW" = false -> short_key_roundtrip m)
  /\ (forall m : LivelinessPolicy.t,
         str_startswith (enum_name m) "RMW" = false -> short_key_roundtrip m).
Proof.
  split; [|split; [|split]]; intros m _; apply short_key_roundtrip_intro;
    destruct m; first [reflexivity | cbn; tauto].
Qed.

Lemma short_keys_round_trip_witness :
  short_key_roundtrip HistoryPolicy.KEEP_LAST
  /\ QoSPolicyEnum.get_from_short_key HistoryPolicy.t "Keep_Last" = Ok 1.
Proof.
  pose proof (proj1 short_keys_round_trip HistoryPolicy.KEEP_LAST eq_refl) as H.
  split; [exact H|].
  destruct H as (_ & _ & _ & Hs). apply Hs. reflexivity.
Defined.

(** ** Compatibility *)

Lemma c_enum_member {E} `{IntEnum E} (v : PyVal) (m : E) :
  member_of v = Some m -> c_enum v = Ok m.
Proof. unfold c_enum. by intros ->. Qed.

(** The backend record of a profile exists and carries its reliability. *)
Lemma get_c_qos_profile_Ok self :
  profile_inv self ->
  exists c, QoSProfile.get_c_qos_profile self = Ok c
            /\ self !! "_reliability" = Some (VReliability (qos_reliability c)).
Proof.
  intros Hinv. destruct member_of_members as (Mh & Mr & Md & Ml).
  destruct (Hinv F_history) as (v1 & H1 & K1).
  destruct (Hinv F_depth) as (v2 & H2 & K2).
  destruct (Hinv F_reliability) as (v3 & H3 & K3).
  destruct (Hinv F_durability) as (v4 & H4 & K4).
  destruct (Hinv F_lifespan) as (v5 & H5 & K5).
  destruct (Hinv F_deadline) as (v6 & H6 & K6).
  destruct (Hinv F_liveliness) as (v7 & H7 & K7).
  destruct (Hinv F_liveliness_lease_duration) as (v8 & H8 & K8).
  destruct (Hinv F_avoid_ros_namespace_conventions) as (v9 & H9 & K9).
  change (field_slot F_history) with "_history" in H1.
  change (field_slot F_depth) with "_depth" in H2.
  change (field_slot F_reliability) with "_reliability" in H3.
  change (field_slot F_durability) with "_durability" in H4.
  change (field_slot F_lifespan) with "_lifespan" in H5.
  change (field_slot F_deadline) with "_deadline" in H6.
  change (field_slot F_liveliness) with "_liveliness" in H7.
  change (field_slot F_liveliness_lease_duration) with "_liveliness_lease_duration" in H8.
  change (field_slot F_avoid_ros_namespace_conventions)
    with "_avoid_ros_namespace_conventions" in H9.
  destruct v1 as [| | | |m1| | | | |]; try discriminate.
  destruct v3 as [| | | | |m3| | | |]; try discriminate.
  destruct v4 as [| | | | | |m4| | |]; try discriminate.
  destruct v5 as [| | | | | | | |n5|]; try discriminate.
  destruct v6 as [| | | | | | | |n6|]; try discriminate.
  destruct v7 as [| | | | | | |m7| |]; try discriminate.
  destruct v8 as [| | | | | | | |n8|]; try discriminate.
  destruct v9 as [|b9| | | | | | | |]; try discriminate.
  cbn in K2. unfold isinstance_int in K2.
  destruct (as_int v2) as [z2|] eqn:Hz2; [|discriminate].
  unfold QoSProfile.get_c_qos_profile, QoSProfile.history, QoSProfile.depth,
    QoSProfile.reliability, QoSProfile.durability, QoSProfile.lifespan,
    QoSProfile.deadline, QoSProfile.liveliness, QoSProfile.liveliness_lease_duration,
    QoSProfile.avoid_ros_namespace_conventions, getattr.
  rewrite H1, H2, H3, H4, H5, H6, H7, H8, H9.
  cbn [mbind result_bind get_c_duration]. unfold rmw_qos_profile_t__call__.
  rewrite (c_enum_member _ _ (Mh m1)), (c_enum_member _ _ (Mr m3)),
    (c_enum_member _ _ (Md m4)), (c_enum_member _ _ (Ml m7)).
  unfold c_int. rewrite Hz2. cbn.
  eexists. split; reflexivity.
Qed.

Lemma prefix_append s t : String.prefix s (s +:+ t) = true.
Proof.
  induction s as [|c s IH]; [by destruct t|].
  simpl. destruct (ascii_dec c c); [exact IH | contradiction].
Qed.

Lemma prefix_refl s : String.prefix s s = true.
Proof.
  induction s as [|c s IH]; [reflexivity|].
  simpl. destruct (ascii_dec c c); [exact IH | contradiction].
Qed.

Lemma str_contains_prefix s t : String.prefix s t = true -> str_contains s t = true.
Proof. intros H. destruct t; cbn [str_contains]; by rewrite H. Qed.

Lemma str_contains_join_head sep x l : str_contains x (str_join sep (x :: l)) = true.
Proof.
  apply str_contains_prefix. unfold str_join. cbn [String.concat].
  destruct l; [apply prefix_refl | apply prefix_append].
Qed.

(** C1: when the publisher's reliability is BEST_EFFORT and the
    subscription's is RELIABLE, [qos_check_compatible] returns the verdict
    ERROR and a reason that mentions RELIABILITY. *)
Theorem best_effort_publisher_reliable_subscription
    (deadline_unspecified lease_unspecified : Z -> bool) dflt pub sub :
  reachable dflt pub -> reachable dflt sub ->
  pub !! "_reliability" = Some (VReliability ReliabilityPolicy.BEST_EFFORT) ->
  sub !! "_reliability" = Some (VReliability ReliabilityPolicy.RELIABLE) ->
  exists reason,
    qos_check_compatible
      (_rclpy.rclpy_qos_check_compatible deadline_unspecified lease_unspecified)
      pub sub
    = Ok (QoSCompatibility.ERROR, reason)
    /\ str_contains "RELIABILITY" reason = true.
Proof.
  intros Hp Hs Hpr Hsr. apply reachable_inv in Hp, Hs.
  destruct (get_c_qos_profile_Ok pub Hp) as (p & Hcp & Hp').
  destruct (get_c_qos_profile_Ok sub Hs) as (s & Hcs & Hs').
  rewrite Hpr in Hp'. rewrite Hsr in Hs'. injection Hp' as Hp'. injection Hs' as Hs'.
  unfold qos_check_compatible. rewrite Hcp, Hcs. cbn [mbind result_bind mret result_ret].
  unfold QoSCompatibility.__call__, _rclpy.rclpy_qos_check_compatible.
  cbn [compatibility reason].
  unfold _rclpy.policy_verdicts. rewrite <- Hp', <- Hs'.
  eexists. split; [reflexivity|].
  unfold _rclpy.reason_text.
  cbn [List.filter _rclpy.reliability_rule _rclpy.is_OK negb snd map fst].
  apply str_contains_join_head.
Qed.

Lemma best_effort_publisher_witness :
  exists reason,
    qos_check_compatible
      (_rclpy.rclpy_qos_check_compatible (Z.eqb 0) (Z.eqb 0))
      (sample_profile 5 ReliabilityPolicy.BEST_EFFORT)
      (sample_profile 5 ReliabilityPolicy.RELIABLE)
    = Ok (QoSCompatibility.ERROR, reason)
    /\ str_contains "RELIABILITY" reason = true.
Proof.
  apply (best_effort_publisher_reliable_subscription (Z.eqb 0) (Z.eqb 0)
           sample_default_dict).
  - apply sample_profile_reachable.
  - apply sample_profile_reachable.
  - apply (sample_profile_lookup 5 ReliabilityPolicy.BEST_EFFORT F_reliability).
  - apply (sample_profile_lookup 5 ReliabilityPolicy.RELIABLE F_reliability).
Defined.

(** * Further properties *)

(** ** Enumerations by value *)

Lemma enum_call_VInt {E} `{IntEnum E} z (m : E) :
  enum_call (VInt z) = Ok m <-> enum_lookup_value z = Some m.
Proof.
  unfold enum_call, member_of. cbn [as_int mbind option_bind].
  destruct (enum_lookup_value z); split; congruence.
Qed.

Lemma values_round_trip_intro (E : Type) `{IntEnum E} :
  (forall m : E, enum_lookup_value (enum_value m) = Some m) ->
  values_round_trip E.
Proof.
  intros Hall m z. rewrite enum_call_VInt. split.
  - intros Hz. by apply enum_lookup_value_spec in Hz as [? _].
  - intros <-. apply Hall.
Qed.

(** X1: [qos_policy_name_from_kind] gives each kind's name from its value,
    the ten values being the single bits 1 << 0 to 1 << 9, and raises
    [ValueError] on every other integer. *)
Theorem qos_policy_name_from_kind_total :
  (forall k : QoSPolicyKind,
      qos_policy_name_from_kind (VInt (enum_value k)) = Ok (enum_name k)
      /\ exists i, 0 <= i < 10 /\ enum_value k = 2 ^ i)
  /\ (forall (k : QoSPolicyKind) z,
         qos_policy_name_from_kind (VInt z) = Ok (enum_name k) <-> enum_value k = z)
  /\ (forall z, (forall k : QoSPolicyKind, enum_value k <> z) ->
         qos_policy_name_from_kind (VInt z)
         = Raise (ValueError [VStr (repr_int z +:+ " is not a valid QoSPolicyKind")])).
Proof.
  assert (Hrt : values_round_trip QoSPolicyKind).
  { apply values_round_trip_intro. intros k. by destruct k. }
  split; [|split].
  - intros k. split; [by destruct k|].
    destruct k; [exists 0 | exists 1 | exists 2 | exists 3 | exists 4 | exists 5
                 | exists 6 | exists 7 | exists 8 | exists 9]; split; (lia || reflexivity).
  - intros k z. unfold qos_policy_name_from_kind. split.
    + destruct (enum_call (VInt z)) as [k'|e] eqn:Hc; [|discriminate].
      cbn. intros [= Hn]. apply Hrt in Hc as <-. by destruct k, k'.
    + intros Hz. apply Hrt in Hz. by rewrite Hz.
  - intros z Hz. unfold qos_policy_name_from_kind, enum_call, member_of.
    cbn [as_int mbind option_bind].
    destruct (enum_lookup_value z) as [k|] eqn:Hk; [|reflexivity].
    apply enum_lookup_value_spec in Hk as [Hk _]. by apply Hz in Hk.
Qed.

(** X2: for each policy class, [cls(z)] on an integer is the member [m]
    exactly when [z] is the value of [m]: no two members share a value. *)
Theorem policy_values_round_trip :
  values_round_trip HistoryPolicy.t
  /\ values_round_trip ReliabilityPolicy.t
  /\ values_round_trip DurabilityPolicy.t
  /\ values_round_trip LivelinessPolicy.t.
Proof.
  split; [|split; [|split]]; apply values_round_trip_intro; intros m; by destruct m.
Qed.


(** ** Short keys, both ways *)







(** X4: the [short_key] of every member of a policy class is its lower-cased
    name, never the [AttributeError] of the loop's end, and
    [get_from_short_key] maps it back to the member's value. *)
Theorem short_key_of_every_member :
  (forall m : HistoryPolicy.t, short_key_inverse m)
  /\ (forall m : ReliabilityPolicy.t, short_key_inverse m)
  /\ (forall m : DurabilityPolicy.t, short_key_inverse m)
  /\ (forall m : LivelinessPolicy.t, short_key_inverse m).
Proof.
  split; [|split; [|split]]; intros m; unfold short_key_inverse;
    destruct m; (split; [reflexivity|]); intros k [= <-]; reflexivity.
Qed.

(** ** Deprecated names *)

Lemma deprecated_access (E : Type) `{IntEnum E} `{Deprecated E} dep rep (m : E) :
  enum_lookup_name (E:=E) dep = None ->
  class_attrs E !! dep = Some (_DeprecatedPolicyValueAlias.__init__ rep dep) ->
  enum_lookup_name rep = Some m ->
  exists access,
    class_getattr E dep = Some access
    /\ forall s,
         access s
         = (Ok m,
            (s.1,
             (s.2 ++ [UserWarning (enum_qualname (E:=E) +:+ "." +:+ dep
                                   +:+ " is deprecated. " +:+ "Use "
                                   +:+ enum_qualname (E:=E) +:+ "." +:+ rep
                                   +:+ " instead.")])%list)).
Proof.
  intros Hnot Hattr Hrep. unfold class_getattr. rewrite Hnot, Hattr.
  eexists. split; [reflexivity|]. intros s.
  unfold _DeprecatedPolicyValueAlias.__get__. rewrite bind_M_eq.
  unfold warn, lift, enum_getitem.
  cbn [_DeprecatedPolicyValueAlias.replacement_name
         _DeprecatedPolicyValueAlias.deprecated_name
         _DeprecatedPolicyValueAlias.__init__ fst snd].
  by rewrite Hrep.
Qed.

(** X5: every deprecated name a policy class is decorated with is no member
    of the class and starts with [RMW]; accessing it issues one warning that
    names the deprecated and the replacement name, and returns the member of
    the replacement name. *)
Theorem deprecated_names_resolve_to_members :
  deprecated_names_resolve HistoryPolicy.t
  /\ deprecated_names_resolve ReliabilityPolicy.t
  /\ deprecated_names_resolve DurabilityPolicy.t
  /\ deprecated_names_resolve LivelinessPolicy.t.
Proof.
  split; [|split; [|split]]; intros dep rep Hin; cbn in Hin;
    repeat (destruct Hin as [[= <- <-]|Hin]; [|]); try contradiction;
    (split; [reflexivity|]); (split; [reflexivity|]);
    match goal with
    | |- exists (m : ?E) access, enum_name m = ?rep /\ class_getattr _ ?dep = _ /\ _ =>
        let r := eval vm_compute in (enum_lookup_name (E:=E) rep) in
        match r with
        | Some ?m =>
            destruct (deprecated_access E dep rep m) as (access & Ha & Hs);
            [vm_compute; reflexivity ..|];
            exists m, access; split; [reflexivity|]; split; [exact Ha | exact Hs]
        end
    end.
Qed.


(** ** Assignments *)

Lemma getter_getattr f self : getter f self = getattr (field_slot f) self.
Proof. by destruct f. Qed.

Lemma field_valid_isinstance f v : field_valid f v = true -> field_isinstance f v = true.
Proof.
  unfold field_valid. destruct (field_store f v) as [v'|] eqn:Hs; [|discriminate].
  intros _. destruct f; cbn [field_store field_isinstance] in *;
    try (destruct (member_of v) as [m|] eqn:Hm; [|discriminate];
         apply (member_of_int _ _ Hm));
    by destruct v.
Qed.

(** X6: an assignment to a field of a profile either stores or raises, and
    a raise leaves the profile and the warnings as they were: a value of the
    wrong type fails the setter's assertion, an integer that is no value of
    the field's enumeration raises [ValueError], any other value is
    stored. *)
Theorem assignment_outcome dflt self f v w :
  reachable dflt self ->
  match field_isinstance f v, field_valid f v with
  | false, _ => setter f v (self, w) = (Raise (AssertionError []), (self, w))
  | true, false =>
      exists msg, setter f v (self, w) = (Raise (ValueError [VStr msg]), (self, w))
  | true, true => exists self' w', setter f v (self, w) = (Ok tt, (self', w'))
  end.
Proof.
  intros Hr. apply reachable_inv in Hr.
  destruct (field_isinstance f v) eqn:Hi.
  - destruct (field_valid f v) eqn:Hv; unfold field_valid in Hv;
      destruct (field_store f v) as [v'|] eqn:Hs; try discriminate.
    + destruct (decide (f = F_depth)) as [->|Hne].
      * destruct (Hr F_history) as (h & Hh & _). cbn [field_isinstance] in Hi.
        eexists _, _. apply (depth_setter_stores v h); assumption.
      * eexists _, _. by apply setter_stores.
    + destruct f; cbn [field_store field_isinstance] in Hs, Hi;
        try (rewrite Hi in Hs; discriminate);
        (destruct (member_of v) as [m|] eqn:Hm; [discriminate|]);
        destruct (enum_call_None _ Hm) as [msg Hc]; exists msg;
        unfold_setter; rewrite Hi, ?orb_true_r; try (destruct v; try discriminate);
        unfold mret, M_ret; rewrite Hc; reflexivity.
  - destruct f; cbn [field_isinstance] in Hi; unfold_setter;
      try (rewrite Hi, ?orb_false_r); destruct v; try discriminate; reflexivity.
Qed.

Lemma assignment_outcome_witness :
  exists msg,
    setter F_reliability (VInt 9) (sample_profile 5 ReliabilityPolicy.RELIABLE, [])
    = (Raise (ValueError [VStr msg]), (sample_profile 5 ReliabilityPolicy.RELIABLE, [])).
Proof.
  apply (assignment_outcome sample_default_dict
           (sample_profile 5 ReliabilityPolicy.RELIABLE) F_reliability (VInt 9) []).
  apply sample_profile_reachable.
Defined.

(** X7: a successful assignment to one field leaves the other eight fields
    as they were; in particular assigning a history does not touch the
    depth. *)
Theorem assignment_changes_one_field dflt self f v w self' w' g :
  reachable dflt self ->
  setter f v (self, w) = (Ok tt, (self', w')) ->
  g <> f ->
  getter g self' = getter g self.
Proof.
  intros Hr Hs Hg. apply reachable_inv in Hr.
  apply (setter_Ok_inv _ _ _ _ _ _ Hr) in Hs as (v' & _ & -> & _).
  rewrite !getter_getattr. unfold getattr. rewrite lookup_insert_ne; [reflexivity|].
  intros E. apply Hg. symmetry. by apply field_slot_inj.
Qed.

Lemma assignment_changes_one_field_witness :
  getter F_depth keep_all_profile
  = getter F_depth (sample_profile 5 ReliabilityPolicy.RELIABLE).
Proof.
  apply (assignment_changes_one_field sample_default_dict
           (sample_profile 5 ReliabilityPolicy.RELIABLE) F_history (VInt 2) []
           keep_all_profile [] F_depth).
  - apply sample_profile_reachable.
  - by apply (setter_stores F_history (VInt 2) (VHistory HistoryPolicy.KEEP_ALL)).
  - discriminate.
Defined.

(** X8: after a successful assignment the field reads back a value that is
    equal to the assigned one and of the field's own type: a member, an
    [int], a [Duration] or a [bool]. *)
Theorem assignment_reads_back dflt self f v w self' w' :
  reachable dflt self ->
  setter f v (self, w) = (Ok tt, (self', w')) ->
  exists v', getter f self' = Ok v' /\ py_eq v' v = true /\ field_holds f v' = true.
Proof.
  intros Hr Hs. apply reachable_inv in Hr.
  apply (setter_Ok_inv _ _ _ _ _ _ Hr) in Hs as (v' & Hst & -> & _).
  exists v'. rewrite getter_getattr. unfold getattr. rewrite lookup_insert_eq.
  split; [reflexivity|]. split; [eapply field_store_py_eq, Hst | eapply field_store_holds, Hst].
Qed.

Lemma assignment_reads_back_witness :
  exists v', getter F_history keep_all_profile = Ok v'
             /\ py_eq v' (VInt 2) = true /\ field_holds F_history v' = true.
Proof.
  apply (assignment_reads_back sample_default_dict
           (sample_profile 5 ReliabilityPolicy.RELIABLE) F_history (VInt 2) []
           keep_all_profile []).
  - apply sample_profile_reachable.
  - by apply (setter_stores F_history (VInt 2) (VHistory HistoryPolicy.KEEP_ALL)).
Defined.

(** ** More on construction *)

Lemma resolved_supplied dflt a f v :
  is_None (field_arg f a) = false ->
  resolved dflt a f = Some v -> field_store f (field_arg f a) = Some v.
Proof.
  intros Hn. destruct f; cbn [resolved]; unfold resolve, supplied, resolve_history;
    cbn [field_arg] in *; rewrite Hn; try (intros H; exact H).
Qed.

(** X9: a constructed profile reads back, for every argument that was
    supplied, a value equal to the argument. *)
Theorem supplied_arguments_are_stored dflt a w self w' f :
  QoSProfile.__call__ dflt a w = (Ok self, w') ->
  is_None (field_arg f a) = false ->
  exists v, getter f self = Ok v /\ py_eq v (field_arg f a) = true.
Proof.
  intros Hc Hn. apply call_Ok_inv in Hc as (Hall & _ & _).
  destruct (Hall f) as [[v Hv] Hl]. exists v.
  rewrite getter_getattr. unfold getattr. rewrite Hl, Hv. split; [reflexivity|].
  eapply field_store_py_eq, resolved_supplied; eassumption.
Qed.

Lemma supplied_arguments_witness :
  exists v, getter F_reliability (sample_profile 5 ReliabilityPolicy.RELIABLE) = Ok v
            /\ py_eq v (VInt 1) = true.
Proof.
  apply (supplied_arguments_are_stored sample_default_dict
           (depth_reliability 5 (VInt 1)) [] _ [] F_reliability).
  - by apply sample_profile_constructed.
  - reflexivity.
Defined.

(** X10: a profile constructed without a depth has a history other than
    KEEP_LAST, given explicitly, and its depth is the default dictionary's
    entry, stored as it is. *)
Theorem omitted_depth_takes_default dflt a w self w' :
  QoSProfile.__call__ dflt a w = (Ok self, w') ->
  is_None (kw_depth a) = true ->
  is_None (kw_history a) = false
  /\ (exists h, getter F_history self = Ok (VHistory h) /\ h <> HistoryPolicy.KEEP_LAST)
  /\ (exists d, dflt !! "depth" = Some d /\ getter F_depth self = Ok d
                /\ isinstance_int d = true).
Proof.
  intros Hc Hn. apply call_Ok_inv in Hc as (Hall & Hk & _).
  destruct (Hall F_history) as [[vh Hvh] Hlh]. destruct (Hall F_depth) as [[d Hd] Hld].
  change (field_slot F_history) with "_history" in Hlh.
  change (field_slot F_depth) with "_depth" in Hld.
  cbn [resolved] in Hvh, Hd, Hlh, Hld. rewrite Hd in Hld.
  destruct (resolve_history a) as [h|] eqn:Hh; [|discriminate].
  specialize (Hk h eq_refl). rewrite Hn, andb_true_r in Hk.
  split; [|split].
  - unfold resolve_history in Hh. destruct (is_None (kw_history a)); [|reflexivity].
    rewrite Hn in Hh. discriminate.
  - exists h. unfold getter, QoSProfile.history, getattr. rewrite Hlh.
    split; [reflexivity|]. intros ->. discriminate.
  - unfold resolve, supplied in Hd. cbn [field_arg field_key] in Hd. rewrite Hn in Hd.
    destruct (dflt !! "depth") as [d0|]; [|discriminate]. cbn in Hd.
    destruct (isinstance_int d0) eqn:Hi; [|discriminate]. injection Hd as <-.
    exists d0. unfold getter, QoSProfile.depth, getattr. rewrite Hld. auto.
Qed.

Lemma keep_all_constructed_call :
  QoSProfile.__call__ sample_default_dict keep_all_kwargs []
  = (Ok keep_all_constructed, []).
Proof.
  apply (call_Ok_explicit sample_default_dict keep_all_kwargs []
           HistoryPolicy.KEEP_ALL (VInt 10)
           [VReliability ReliabilityPolicy.RELIABLE;
            VDurability DurabilityPolicy.VOLATILE; VDuration 0; VDuration 0;
            VLiveliness LivelinessPolicy.SYSTEM_DEFAULT; VDuration 0; VBool false]);
    reflexivity.
Qed.

Lemma omitted_depth_witness :
  is_None (kw_history keep_all_kwargs) = false
  /\ (exists h, getter F_history keep_all_constructed = Ok (VHistory h)
                /\ h <> HistoryPolicy.KEEP_LAST)
  /\ (exists d, sample_default_dict !! "depth" = Some d
                /\ getter F_depth keep_all_constructed = Ok d
                /\ isinstance_int d = true).
Proof.
  apply (omitted_depth_takes_default sample_default_dict keep_all_kwargs []
           keep_all_constructed []).
  - apply keep_all_constructed_call.
  - reflexivity.
Defined.

(** *** The default dictionary is read for omitted arguments only *)

Lemma bind_M_ext {A B} (m1 m2 : M A) (k1 k2 : A -> M B) s :
  m1 s = m2 s -> (forall x s', k1 x s' = k2 x s') -> (m1 ≫= k1) s = (m2 ≫= k2) s.
Proof.
  intros Hm Hk. rewrite !bind_M_eq, Hm. destruct (m2 s) as [[x|e] s']; [apply Hk | reflexivity].
Qed.

Lemma assign_field_ext d1 d2 a f s :
  supplied d1 f a = supplied d2 f a -> assign_field d1 a f s = assign_field d2 a f s.
Proof. intros Hf. by rewrite !assign_field_eq, Hf. Qed.

Lemma assign_fields_ext d1 d2 a fs s :
  (forall f, In f fs -> supplied d1 f a = supplied d2 f a) ->
  assign_fields d1 a fs s = assign_fields d2 a fs s.
Proof.
  revert s. induction fs as [|f fs IH]; intros s Hfs; [reflexivity|].
  destruct fs as [|g fs]; [apply assign_field_ext, Hfs; by left|].
  change (assign_fields ?d a (f :: g :: fs))
    with (assign_field d a f ≫= (fun _ => assign_fields d a (g :: fs))).
  apply bind_M_ext; [apply assign_field_ext, Hfs; by left|].
  intros _ s'. apply IH. intros f' Hf'. apply Hfs. by right.
Qed.

(** X11: the constructor reads the default dictionary only at the keys of
    the omitted arguments other than history: two dictionaries that agree
    there give the same result, profile or exception, and the same
    warnings. *)
Theorem defaults_matter_for_omitted_only d1 d2 a w :
  (forall f, f <> F_history -> is_None (field_arg f a) = true ->
             d1 !! field_key f = d2 !! field_key f) ->
  QoSProfile.__call__ d1 a w = QoSProfile.__call__ d2 a w.
Proof.
  intros Hd.
  assert (Hsup : forall f, f <> F_history -> supplied d1 f a = supplied d2 f a).
  { intros f Hf. unfold supplied. destruct (is_None (field_arg f a)) eqn:Hn; [|reflexivity].
    by apply Hd. }
  unfold QoSProfile.__call__.
  assert (Hi : forall s, QoSProfile.__init__ d1 a s = QoSProfile.__init__ d2 a s).
  { intros s. rewrite !init_unfold.
    apply bind_M_ext; [reflexivity|]. intros h s1.
    apply bind_M_ext; [reflexivity|]. intros _ s2. unfold init_rest.
    apply bind_M_ext; [reflexivity|]. intros h' s3.
    apply bind_M_ext; [reflexivity|]. intros _ s4.
    apply bind_M_ext.
    - apply assign_field_ext, Hsup. discriminate.
    - intros _ s5. apply assign_fields_ext. intros f Hf. apply Hsup.
      intros ->. simpl in Hf. intuition discriminate. }
  by rewrite Hi.
Qed.

Lemma defaults_matter_witness :
  QoSProfile.__call__ sample_default_dict
    (depth_reliability 5 (VReliability ReliabilityPolicy.BEST_EFFORT)) []
  = QoSProfile.__call__ (<["history" := VInt 2]> (<["depth" := VInt 7]>
                           (<["reliability" := VInt 0]> sample_default_dict)))
      (depth_reliability 5 (VReliability ReliabilityPolicy.BEST_EFFORT)) [].
Proof.
  apply defaults_matter_for_omitted_only.
  intros f Hf Hn. destruct f; try congruence; try discriminate Hn;
    cbn [field_key]; by rewrite !lookup_insert_ne.
Defined.

(** *** Copies *)

Lemma field_holds_store f v : field_holds f v = true -> field_store f v = Some v.
Proof.
  destruct member_of_members as (Mh & Mr & Md & Ml).
  destruct f, v; try discriminate; intros Hh; cbn [field_store];
    rewrite ?Mh, ?Mr, ?Md, ?Ml; try reflexivity;
    cbn in Hh |- *; by rewrite ?Hh.
Qed.

Lemma field_holds_not_None f v : field_holds f v = true -> is_None v = false.
Proof. destruct f, v; try discriminate; reflexivity. Qed.

(** X12: the keyword arguments read from a profile construct, under any
    default dictionary, a profile whose nine fields read as the original's
    and that is equal to it; the construction warns exactly when the
    original has history KEEP_LAST and a depth equal to 0. *)
Theorem copy_construction dflt p :
  reachable dflt p ->
  exists a h d,
    kwargs_of p = Ok a
    /\ getter F_history p = Ok h /\ getter F_depth p = Ok d
    /\ forall dflt' w,
         exists q,
           QoSProfile.__call__ dflt' a w = (Ok q, (w ++ zero_depth_warning h d)%list)
           /\ (forall f, getter f q = getter f p)
           /\ QoSProfile.__eq__ q (Profile p) = Ok true.
Proof.
  intros Hr. apply reachable_inv in Hr.
  destruct (Hr F_history) as (v1 & H1 & K1). destruct (Hr F_depth) as (v2 & H2 & K2).
  destruct (Hr F_reliability) as (v3 & H3 & K3). destruct (Hr F_durability) as (v4 & H4 & K4).
  destruct (Hr F_lifespan) as (v5 & H5 & K5). destruct (Hr F_deadline) as (v6 & H6 & K6).
  destruct (Hr F_liveliness) as (v7 & H7 & K7).
  destruct (Hr F_liveliness_lease_duration) as (v8 & H8 & K8).
  destruct (Hr F_avoid_ros_namespace_conventions) as (v9 & H9 & K9).
  set (a := {| kw_history := v1; kw_depth := v2; kw_reliability := v3;
               kw_durability := v4; kw_lifespan := v5; kw_deadline := v6;
               kw_liveliness := v7; kw_liveliness_lease_duration := v8;
               kw_avoid_ros_namespace_conventions := v9 |}).
  assert (Harg : forall f, p !! field_slot f = Some (field_arg f a)
                           /\ field_holds f (field_arg f a) = true).
  { intros f. by destruct f. }
  exists a, v1, v2. split; [|split; [|split]].
  - unfold kwargs_of, QoSProfile.history, QoSProfile.depth, QoSProfile.reliability,
      QoSProfile.durability, QoSProfile.lifespan, QoSProfile.deadline,
      QoSProfile.liveliness, QoSProfile.liveliness_lease_duration,
      QoSProfile.avoid_ros_namespace_conventions, getattr.
    change (field_slot F_history) with "_history" in H1.
    change (field_slot F_depth) with "_depth" in H2.
    change (field_slot F_reliability) with "_reliability" in H3.
    change (field_slot F_durability) with "_durability" in H4.
    change (field_slot F_lifespan) with "_lifespan" in H5.
    change (field_slot F_deadline) with "_deadline" in H6.
    change (field_slot F_liveliness) with "_liveliness" in H7.
    change (field_slot F_liveliness_lease_duration) with "_liveliness_lease_duration" in H8.
    change (field_slot F_avoid_ros_namespace_conventions)
      with "_avoid_ros_namespace_conventions" in H9.
    by rewrite H1, H2, H3, H4, H5, H6, H7, H8, H9.
  - rewrite getter_getattr. unfold getattr. by rewrite H1.
  - rewrite getter_getattr. unfold getattr. by rewrite H2.
  - intros dflt' w.
    assert (Hres : forall f, resolved dflt' a f = Some (field_arg f a)).
    { intros f. destruct (Harg f) as [_ Hh].
      pose proof (field_holds_not_None _ _ Hh) as Hn.
      pose proof (field_holds_store _ _ Hh) as Hs.
      destruct f; cbn [resolved]; unfold resolve, supplied, resolve_history;
        cbn [field_arg] in *; rewrite Hn; exact Hs. }
    destruct (call_Ok_intro dflt' a w) as [q Hc].
    { intros f. rewrite Hres. eauto. }
    { intros h _. cbn [kw_depth a]. rewrite (field_holds_not_None _ _ K2).
      apply andb_false_r. }
    exists q. pose proof Hc as Hc'. apply call_Ok_inv in Hc' as (Hall & _ & _).
    assert (Hq : forall f, q !! field_slot f = p !! field_slot f).
    { intros f. destruct (Hall f) as [_ ->]. rewrite Hres. symmetry. apply Harg. }
    split; [|split].
    + rewrite Hc. do 2 f_equal. unfold depth_warning.
      pose proof (Hres F_history) as Hh. pose proof (Hres F_depth) as Hd.
      cbn [resolved field_arg a] in Hh, Hd. rewrite Hd.
      destruct (resolve_history a) as [h|]; [|discriminate]. by injection Hh as <-.
    + intros f. rewrite !getter_getattr. unfold getattr. by rewrite Hq.
    + rewrite eq_forallb; [|by eapply constructed_inv|assumption].
      f_equal. apply forallb_forall. intros f _. unfold slot_eq. rewrite Hq.
      destruct (Harg f) as [-> Hh]. eapply py_eq_refl_holds, Hh.
Qed.

Lemma copy_construction_witness :
  exists a h d,
    kwargs_of keep_all_profile = Ok a
    /\ getter F_history keep_all_profile = Ok h /\ getter F_depth keep_all_profile = Ok d
    /\ forall dflt' w,
         exists q,
           QoSProfile.__call__ dflt' a w = (Ok q, (w ++ zero_depth_warning h d)%list)
           /\ (forall f, getter f q = getter f keep_all_profile)
           /\ QoSProfile.__eq__ q (Profile keep_all_profile) = Ok true.
Proof.
  apply (copy_construction sample_default_dict keep_all_profile).
  apply keep_all_profile_reachable.
Defined.

(** ** Equality of values and of profiles *)

Lemma py_eq_trans a b c : py_eq a b = true -> py_eq b c = true -> py_eq a c = true.
Proof.
  unfold py_eq.
  destruct (as_int a) as [x|] eqn:Ha, (as_int b) as [y|] eqn:Hb, (as_int c) as [z|] eqn:Hc.
  - rewrite !Z.eqb_eq. congruence.
  - intros _. destruct b, c; discriminate.
  - destruct a, b; discriminate.
  - destruct a, b; discriminate.
  - destruct a, b; discriminate.
  - destruct a, b; discriminate.
  - intros _. destruct b, c; discriminate.
  - destruct a, b, c; try discriminate; try reflexivity.
    + rewrite !String.eqb_eq. congruence.
    + rewrite !Z.eqb_eq. congruence.
Qed.

Lemma py_eq_cong x y c : py_eq x y = true -> py_eq x c = py_eq y c.
Proof.
  intros Hxy. destruct (py_eq x c) eqn:Hx, (py_eq y c) eqn:Hy; try reflexivity.
  - rewrite py_eq_sym in Hxy. by rewrite (py_eq_trans _ _ _ Hxy Hx) in Hy.
  - by rewrite (py_eq_trans _ _ _ Hxy Hy) in Hx.
Qed.

Lemma py_eq_is_None a b : py_eq a b = true -> is_None a = is_None b.
Proof. destruct a, b; try discriminate; reflexivity. Qed.

Lemma field_store_eq_args f v1 v2 x y :
  field_store f v1 = Some x -> field_store f v2 = Some y ->
  py_eq v1 v2 = true -> py_eq x y = true.
Proof.
  intros Hx Hy Hv. apply field_store_py_eq in Hx, Hy.
  rewrite py_eq_sym in Hy. eauto using py_eq_trans.
Qed.

Lemma resolved_eq_args dflt a b f x y :
  kwargs_eq a b ->
  resolved dflt a f = Some x -> resolved dflt b f = Some y -> py_eq x y = true.
Proof.
  intros Hab Hx Hy.
  assert (Hn : forall g, is_None (field_arg g a) = is_None (field_arg g b)).
  { intros g. apply py_eq_is_None, Hab. }
  destruct (is_None (field_arg f a)) eqn:Hna.
  - assert (x = y) as <-.
    { pose proof (Hn f) as Hnf. pose proof (Hn F_depth) as Hnd. rewrite Hna in Hnf.
      cbn [field_arg] in Hnd.
      destruct f; cbn [resolved] in Hx, Hy;
        unfold resolve, supplied, resolve_history in Hx, Hy;
        cbn [field_arg] in *; rewrite ?Hna, <- ?Hnf, <- ?Hnd in *; congruence. }
    eapply py_eq_refl_holds, resolved_holds, Hx.
  - eapply field_store_eq_args; [| |apply (Hab f)].
    + eapply resolved_supplied; eassumption.
    + eapply resolved_supplied; [|eassumption]. by rewrite <- Hn.
Qed.

(** X13: two constructions whose arguments are pairwise equal, a member
    against its integer or [True] against 1, give, when both succeed,
    profiles that are equal and the same warnings. *)
Theorem equal_arguments_equal_profiles dflt a b w p wp q wq :
  kwargs_eq a b ->
  QoSProfile.__call__ dflt a w = (Ok p, wp) ->
  QoSProfile.__call__ dflt b w = (Ok q, wq) ->
  QoSProfile.__eq__ p (Profile q) = Ok true /\ wp = wq.
Proof.
  intros Hab Hp Hq.
  pose proof (constructed_inv _ _ _ _ _ Hp) as Ip.
  pose proof (constructed_inv _ _ _ _ _ Hq) as Iq.
  apply call_Ok_inv in Hp as (Ha & _ & ->). apply call_Ok_inv in Hq as (Hb & _ & ->).
  split.
  - rewrite eq_forallb by assumption. f_equal. apply forallb_forall. intros f _.
    unfold slot_eq. destruct (Ha f) as [[x Hx] ->]. destruct (Hb f) as [[y Hy] ->].
    rewrite Hx, Hy. eapply resolved_eq_args; eassumption.
  - f_equal. unfold depth_warning.
    destruct (Ha F_history) as [[xh Hxh] _]. destruct (Hb F_history) as [[yh Hyh] _].
    destruct (Ha F_depth) as [[xd Hxd] _]. destruct (Hb F_depth) as [[yd Hyd] _].
    pose proof (resolved_eq_args _ _ _ _ _ _ Hab Hxh Hyh) as Eh.
    pose proof (resolved_eq_args _ _ _ _ _ _ Hab Hxd Hyd) as Ed.
    cbn [resolved] in Hxh, Hyh, Hxd, Hyd. rewrite Hxd, Hyd.
    destruct (resolve_history a) as [h1|]; [|discriminate].
    destruct (resolve_history b) as [h2|]; [|discriminate].
    injection Hxh as <-. injection Hyh as <-.
    unfold zero_depth_warning. by rewrite (py_eq_cong _ _ _ Eh), (py_eq_cong _ _ _ Ed).
Qed.

Lemma equal_arguments_witness :
  QoSProfile.__eq__ (sample_profile 5 ReliabilityPolicy.RELIABLE)
                    (Profile (sample_profile 5 ReliabilityPolicy.RELIABLE)) = Ok true
  /\ ([] ++ zero_depth_warning (VHistory HistoryPolicy.KEEP_LAST) (VInt 5))%list
     = ([] ++ zero_depth_warning (VHistory HistoryPolicy.KEEP_LAST) (VInt 5))%list.
Proof.
  apply (equal_arguments_equal_profiles sample_default_dict
           (depth_reliability 5 (VInt 1))
           (depth_reliability 5 (VReliability ReliabilityPolicy.RELIABLE)) []).
  - intros f. by destruct f.
  - by apply sample_profile_constructed.
  - by apply sample_profile_constructed.
Defined.



(** ** Warnings *)

(** X15: only an assignment to the depth warns, once, and exactly when the
    history is KEEP_LAST and the assigned value equals 0; assigning the
    history KEEP_LAST to a profile whose depth is 0 issues no warning. *)
Theorem only_depth_assignment_warns dflt self f v w self' w' :
  reachable dflt self ->
  setter f v (self, w) = (Ok tt, (self', w')) ->
  exists h,
    getter F_history self = Ok (VHistory h)
    /\ ((f = F_depth /\ h = HistoryPolicy.KEEP_LAST /\ as_int v = Some 0
         /\ w' = (w ++ [UserWarning QoSProfile.zero_depth_message])%list)
        \/ (~ (f = F_depth /\ h = HistoryPolicy.KEEP_LAST /\ as_int v = Some 0)
            /\ w' = w)).
Proof.
  intros Hr Hs. apply reachable_inv in Hr.
  destruct (Hr F_history) as (vh & Hh & Kh).
  change (field_slot F_history) with "_history" in Hh.
  destruct vh as [| | | |h| | | | |]; try discriminate.
  apply (setter_Ok_inv _ _ _ _ _ _ Hr) in Hs as (v' & _ & _ & h' & Hh' & ->).
  rewrite Hh in Hh'. injection Hh' as <-.
  exists h. split; [unfold getter, QoSProfile.history, getattr; by rewrite Hh|].
  destruct (decide (f = F_depth)) as [->|Hne].
  - destruct (zero_depth_warning_cases h v) as [(-> & -> & Hz)|[-> Hn]].
    + left. auto.
    + right. rewrite app_nil_r. split; [|reflexivity]. intros (_ & Hk & Hz). auto.
  - right. rewrite app_nil_r. split; [|reflexivity]. intros (Hf & _). auto.
Qed.

Lemma only_depth_assignment_warns_witness :
  exists h,
    getter F_history (sample_profile 5 ReliabilityPolicy.RELIABLE) = Ok (VHistory h)
    /\ ((F_depth = F_depth /\ h = HistoryPolicy.KEEP_LAST /\ as_int (VBool false) = Some 0
         /\ [UserWarning QoSProfile.zero_depth_message]
            = ([] ++ [UserWarning QoSProfile.zero_depth_message])%list)
        \/ (~ (F_depth = F_depth /\ h = HistoryPolicy.KEEP_LAST
               /\ as_int (VBool false) = Some 0)
            /\ [UserWarning QoSProfile.zero_depth_message] = [])).
Proof.
  apply (only_depth_assignment_warns sample_default_dict
           (sample_profile 5 ReliabilityPolicy.RELIABLE) F_depth (VBool false) []
           (<["_depth" := VBool false]> (sample_profile 5 ReliabilityPolicy.RELIABLE))).
  - apply sample_profile_reachable.
  - by apply (depth_setter_stores (VBool false) (VHistory HistoryPolicy.KEEP_LAST)).
Defined.
